(** * SovrenAI MCP server: capability detection and tool dispatch

    A shallow embedding of [src/backend/mcp_server.py] (class [MCPServer])
    and the properties of its natural-language specification.

    Python dictionaries are finite maps ([gmap]) from strings to values,
    the module-level [HAS_*] flags are a record of booleans, and the
    calls that leave the interpreter (package metadata lookup, child
    processes, the file system, psutil, GPUtil) are oracles over an
    abstract world.  Methods are computations in a state-and-exception
    monad whose state holds the module globals, the server object, the
    world and the list of child-process launches made so far.  Calls to
    [logger] have no effect on any returned value and are left out. *)

From Stdlib Require Import ZArith Strings.Byte.
From stdpp Require Import gmap strings list fin_maps.

Local Open Scope Z_scope.
Local Open Scope string_scope.
Local Open Scope list_scope.

Set Warnings "-register-all,-clear-no-such-hyp".

Declare Scope py_scope.
Delimit Scope py_scope with py.
Reserved Notation "x <~ m ;; k"
  (at level 100, m at next level, right associativity).

(** ** Module globals: one flag per optional import

    Each [try: import X; HAS_X = True / except ImportError: HAS_X = False]
    block of the module sets one of these booleans when the module is
    loaded.  Only the flags that the class reads are listed. *)

Record DependencyFlags := {
  HAS_PSUTIL : bool;
  HAS_REQUESTS : bool;
  HAS_NUMPY : bool;
  HAS_GPUTIL : bool;
  HAS_QUANTUMRANDOM : bool;
  HAS_QISKIT : bool;
  HAS_MATPLOTLIB : bool;
  HAS_OPENCV : bool;
  HAS_TORCH : bool;
  HAS_TENSORFLOW : bool;
  HAS_PANDAS : bool;
  HAS_SCIPY : bool;
  HAS_SKLEARN : bool;
  HAS_JOBLIB : bool;
  HAS_JSONLINES : bool;
  HAS_TOML : bool;
  HAS_YAML : bool;
  HAS_VIRTUALENV : bool;
  HAS_CONDA : bool;
  HAS_POETRY : bool;
  HAS_PIPENV : bool;
  HAS_PIPDEPTREE : bool;
  HAS_SAFETY : bool;
  HAS_BANDIT : bool;
  HAS_PYLINT : bool;
  HAS_BLACK : bool;
  HAS_ISORT : bool;
  HAS_FLAKE8 : bool;
  HAS_PROFILING : bool;
  HAS_MEMORY_PROFILER : bool;
  HAS_LINE_PROFILER : bool
}.

(** ** [@dataclass MCPCapabilities] *)

Record MCPCapabilities := {
  gpu_monitoring : bool;
  quantum_random : bool;
  quantum_computing : bool;
  image_processing : bool;
  machine_learning : bool;
  deep_learning : bool;
  data_analysis : bool;
  visualization : bool;
  profiling : bool;
  code_quality : bool;
  package_management : bool
}.

(** The body of [MCPServer._detect_capabilities]; Python's [and] / [or]
    on two booleans are [&&] / [||]. *)
Definition detect_capabilities (g : DependencyFlags) : MCPCapabilities := {|
  gpu_monitoring := HAS_GPUTIL g && HAS_PSUTIL g;
  quantum_random := HAS_QUANTUMRANDOM g;
  quantum_computing := HAS_QISKIT g;
  image_processing := HAS_OPENCV g;
  machine_learning := HAS_SKLEARN g && HAS_NUMPY g;
  deep_learning := HAS_TORCH g || HAS_TENSORFLOW g;
  data_analysis := HAS_PANDAS g && HAS_NUMPY g;
  visualization := HAS_MATPLOTLIB g;
  profiling := HAS_PROFILING g || HAS_MEMORY_PROFILER g || HAS_LINE_PROFILER g;
  code_quality := HAS_PYLINT g || HAS_BLACK g || HAS_ISORT g || HAS_FLAKE8 g;
  package_management := HAS_POETRY g || HAS_PIPENV g || HAS_PIPDEPTREE g
|}.

(** One set of flags is below another when every dependency that
    [_detect_capabilities] reads and that is present in the first is
    present in the second. *)
Definition flags_le (g1 g2 : DependencyFlags) : Prop :=
  (HAS_PSUTIL g1 = true -> HAS_PSUTIL g2 = true) /\
  (HAS_NUMPY g1 = true -> HAS_NUMPY g2 = true) /\
  (HAS_GPUTIL g1 = true -> HAS_GPUTIL g2 = true) /\
  (HAS_QUANTUMRANDOM g1 = true -> HAS_QUANTUMRANDOM g2 = true) /\
  (HAS_QISKIT g1 = true -> HAS_QISKIT g2 = true) /\
  (HAS_MATPLOTLIB g1 = true -> HAS_MATPLOTLIB g2 = true) /\
  (HAS_OPENCV g1 = true -> HAS_OPENCV g2 = true) /\
  (HAS_TORCH g1 = true -> HAS_TORCH g2 = true) /\
  (HAS_TENSORFLOW g1 = true -> HAS_TENSORFLOW g2 = true) /\
  (HAS_PANDAS g1 = true -> HAS_PANDAS g2 = true) /\
  (HAS_SKLEARN g1 = true -> HAS_SKLEARN g2 = true) /\
  (HAS_POETRY g1 = true -> HAS_POETRY g2 = true) /\
  (HAS_PIPENV g1 = true -> HAS_PIPENV g2 = true) /\
  (HAS_PIPDEPTREE g1 = true -> HAS_PIPDEPTREE g2 = true) /\
  (HAS_PYLINT g1 = true -> HAS_PYLINT g2 = true) /\
  (HAS_BLACK g1 = true -> HAS_BLACK g2 = true) /\
  (HAS_ISORT g1 = true -> HAS_ISORT g2 = true) /\
  (HAS_FLAKE8 g1 = true -> HAS_FLAKE8 g2 = true) /\
  (HAS_PROFILING g1 = true -> HAS_PROFILING g2 = true) /\
  (HAS_MEMORY_PROFILER g1 = true -> HAS_MEMORY_PROFILER g2 = true) /\
  (HAS_LINE_PROFILER g1 = true -> HAS_LINE_PROFILER g2 = true).

(** ** Exceptions

    The handlers of the source tell two classes apart:
    [except PackageNotFoundError] and [except Exception] (which also
    catches the former, a subclass).  [str_exn] is Python's [str(e)]. *)

Inductive exn :=
| PackageNotFoundError (name : string)
| Exception (msg : string).

Definition str_exn (e : exn) : string :=
  match e with
  | PackageNotFoundError name => "No package metadata was found for " +:+ name
  | Exception msg => msg
  end.

Inductive Res (A : Type) :=
| Ok (a : A)
| Raised (e : exn).
Arguments Ok {A} a.
Arguments Raised {A} e.

(** ** Python values held in the returned dictionaries

    [num] is the type of the readings of psutil and GPUtil (Python
    floats and ints). *)

Inductive Value (num : Type) :=
| VStr (s : string)
| VInt (z : Z)
| VNum (x : num)
| VBool (b : bool)
| VList (l : list (Value num))
| VDict (d : gmap string (Value num)).
Arguments VStr {num} s.
Arguments VInt {num} z.
Arguments VNum {num} x.
Arguments VBool {num} b.
Arguments VList {num} l.
Arguments VDict {num} d.

(** ** The environment of the interpreter *)

(** What [asyncio.create_subprocess_exec] followed by
    [process.communicate()] gives: either an exception (the process could
    not be started, or the wait failed), or the exit code and the two
    captured byte streams. *)
Inductive ExecOutcome :=
| ExecRaise (msg : string)
| ExecDone (returncode : Z) (stdout stderr : list Byte.byte).

Class Env := {
  World : Type;
  (** readings of psutil and GPUtil (Python floats and ints) *)
  num : Type;
  (** [datetime] objects *)
  datetime : Type;
  isoformat : datetime -> string;
  (** [importlib.metadata.version(name)] by its documented outcomes: the
      version string, or [None] for [PackageNotFoundError] *)
  os_version : World -> string -> option string;
  (** a child process run to completion; it may change the world *)
  os_exec : World -> list string -> ExecOutcome * World;
  (** [os.path.exists] *)
  os_path_exists : World -> string -> bool;
  (** [bytes.decode()]: [inl msg] is [UnicodeDecodeError] *)
  decode : list Byte.byte -> string + string;
  (** [sys.executable], [sys.version], [platform.platform()], [os.name] *)
  sys_executable : string;
  sys_version : string;
  platform_platform : string;
  os_name : string;
  (** psutil readings; [inl msg] is a raised exception *)
  psutil_cpu_percent : World -> string + num;
  psutil_virtual_memory_percent : World -> string + num;
  psutil_virtual_memory_total : World -> string + num;
  psutil_disk_usage_percent : World -> string -> string + num;
  psutil_cpu_count : World -> string + num;
  (** [round(total / (1024**3), 2)] *)
  round_gib : num -> num;
  (** [GPUtil.getGPUs()], each device with its attributes
      id, name, memoryUsed, memoryTotal, temperature, load *)
  gputil_getGPUs : World -> string + list (Z * string * num * num * num * num);
  (** [str(uuid.uuid4())] and [datetime.now()] *)
  uuid4 : World -> string;
  datetime_now : World -> datetime
}.

Section Model.
Context `{E : Env}.

Local Abbreviation Value := (Value num).

(** ** The server object and the interpreter state *)

Record MCPServer := {
  capabilities : MCPCapabilities;
  session_id : string;
  start_time : datetime
}.

Record State := {
  globals : DependencyFlags;
  server : MCPServer;
  world : World;
  exec_calls : list (list string)
}.

(** ** The monad of method bodies

    A computation takes the interpreter state and gives either a value
    or a raised exception, together with the state it leaves. *)

Definition M (A : Type) : Type := State -> Res A * State.

Definition ret {A} (a : A) : M A := fun s => (Ok a, s).

Definition raise {A} (e : exn) : M A := fun s => (Raised e, s).

Definition bind {A B} (m : M A) (k : A -> M B) : M B :=
  fun s => match m s with
           | (Ok a, s') => k a s'
           | (Raised e, s') => (Raised e, s')
           end.

Local Notation "x <~ m ;; k" := (bind m (fun x => k)) : py_scope.
Local Open Scope py_scope.

(** [try: m  except Exception as e: h e] *)
Definition try_except {A} (m : M A) (h : exn -> M A) : M A :=
  fun s => match m s with
           | (Ok a, s') => (Ok a, s')
           | (Raised e, s') => h e s'
           end.

(** [try: m  except PackageNotFoundError: h]; any other exception
    passes through. *)
Definition try_except_PackageNotFoundError {A} (m : M A) (h : M A) : M A :=
  fun s => match m s with
           | (Raised (PackageNotFoundError _), s') => h s'
           | r => r
           end.

(** [for x in l: acc = body x acc], where [acc] stands for the local
    variables the body assigns; an exception leaving the body leaves
    the loop. *)
Fixpoint for_each {A B} (l : list A) (body : A -> B -> M B) (acc : B) : M B :=
  match l with
  | [] => ret acc
  | x :: l' => acc' <~ body x acc ;; for_each l' body acc'
  end.

(** *** Reads of the module globals and of [self] *)

Definition get_globals : M DependencyFlags := fun s => (Ok (globals s), s).

Definition get_self : M MCPServer := fun s => (Ok (server s), s).

(** *** Calls that leave the interpreter *)

Definition version (name : string) : M string :=
  fun s => match os_version (world s) name with
           | Some v => (Ok v, s)
           | None => (Raised (PackageNotFoundError name), s)
           end.

Record Process := {
  returncode : Z;
  stdout : list Byte.byte;
  stderr : list Byte.byte
}.

(** [process = await asyncio.create_subprocess_exec(argv..., PIPE, PIPE)]
    followed by [stdout, stderr = await process.communicate()].  Every
    call is appended to [exec_calls], whether or not the launch works. *)
Definition create_subprocess_exec (argv : list string) : M Process :=
  fun s =>
    let '(o, w) := os_exec (world s) argv in
    let s' := {| globals := globals s; server := server s; world := w;
                 exec_calls := exec_calls s ++ [argv] |} in
    match o with
    | ExecRaise msg => (Raised (Exception msg), s')
    | ExecDone rc out err =>
        (Ok {| returncode := rc; stdout := out; stderr := err |}, s')
    end.

Definition bytes_decode (b : list Byte.byte) : M string :=
  match decode b with
  | inr text => ret text
  | inl msg => raise (Exception msg)
  end.

Definition path_exists (p : string) : M bool :=
  fun s => (Ok (os_path_exists (world s) p), s).

(** a psutil or GPUtil read *)
Definition read {A} (f : World -> string + A) : M A :=
  fun s => match f (world s) with
           | inr x => (Ok x, s)
           | inl msg => (Raised (Exception msg), s)
           end.

(** *** Dictionary updates

    [d[k1][k2] = v]: the subscript [d[k1]] raises [KeyError] when the
    key is missing and the item assignment raises [TypeError] when
    [d[k1]] is not a dictionary. *)
Definition setitem2 (k1 k2 : string) (v : Value) (d : gmap string Value)
  : M (gmap string Value) :=
  match d !! k1 with
  | Some (VDict inner) => ret (<[k1 := VDict (<[k2 := v]> inner)]> d)
  | Some _ => raise (Exception "object does not support item assignment")
  | None => raise (Exception ("'" +:+ k1 +:+ "'"))
  end.

(** ** [MCPServer.__init__] and [MCPServer._detect_capabilities] *)

Definition _detect_capabilities : M MCPCapabilities :=
  g <~ get_globals ;;
  ret (detect_capabilities g).

(** The constructor, run on an interpreter whose module globals are [g]
    in world [w]: the new object holds the detected capabilities (the
    call [self._detect_capabilities()] reads the module globals only), a
    fresh session identifier and the current time. *)
Definition MCPServer_init (g : DependencyFlags) (w : World)
  (calls : list (list string)) : State :=
  {| globals := g;
     server := {| capabilities := detect_capabilities g;
                  session_id := uuid4 w;
                  start_time := datetime_now w |};
     world := w;
     exec_calls := calls |}.

(** ** [MCPServer.get_system_info] *)

(** [self.capabilities.__dict__] *)
Definition capabilities_dict (c : MCPCapabilities) : gmap string Value :=
  <["gpu_monitoring" := VBool (gpu_monitoring c)]>
  (<["quantum_random" := VBool (quantum_random c)]>
  (<["quantum_computing" := VBool (quantum_computing c)]>
  (<["image_processing" := VBool (image_processing c)]>
  (<["machine_learning" := VBool (machine_learning c)]>
  (<["deep_learning" := VBool (deep_learning c)]>
  (<["data_analysis" := VBool (data_analysis c)]>
  (<["visualization" := VBool (visualization c)]>
  (<["profiling" := VBool (profiling c)]>
  (<["code_quality" := VBool (code_quality c)]>
  (<["package_management" := VBool (package_management c)]> ∅)))))))))).

Definition packages_to_check (g : DependencyFlags) : list (string * bool) :=
  [ ("psutil", HAS_PSUTIL g);
    ("requests", HAS_REQUESTS g);
    ("numpy", HAS_NUMPY g);
    ("GPUtil", HAS_GPUTIL g);
    ("quantumrandom", HAS_QUANTUMRANDOM g);
    ("qiskit", HAS_QISKIT g);
    ("matplotlib", HAS_MATPLOTLIB g);
    ("opencv-python", HAS_OPENCV g);
    ("torch", HAS_TORCH g);
    ("tensorflow", HAS_TENSORFLOW g);
    ("pandas", HAS_PANDAS g);
    ("scipy", HAS_SCIPY g);
    ("scikit-learn", HAS_SKLEARN g);
    ("joblib", HAS_JOBLIB g);
    ("jsonlines", HAS_JSONLINES g);
    ("toml", HAS_TOML g);
    ("PyYAML", HAS_YAML g);
    ("virtualenv", HAS_VIRTUALENV g);
    ("conda", HAS_CONDA g);
    ("poetry", HAS_POETRY g);
    ("pipenv", HAS_PIPENV g);
    ("pipdeptree", HAS_PIPDEPTREE g);
    ("safety", HAS_SAFETY g);
    ("bandit", HAS_BANDIT g);
    ("pylint", HAS_PYLINT g);
    ("black", HAS_BLACK g);
    ("isort", HAS_ISORT g);
    ("flake8", HAS_FLAKE8 g);
    ("profiling", HAS_PROFILING g);
    ("memory-profiler", HAS_MEMORY_PROFILER g);
    ("line-profiler", HAS_LINE_PROFILER g) ].

(** The body of [for package_name, is_available in packages_to_check].
    The right-hand side [version(package_name)] is evaluated before the
    assignment to [info["installed_packages"][package_name]]. *)
Definition check_package (entry : string * bool) (info : gmap string Value)
  : M (gmap string Value) :=
  let '(package_name, is_available) := entry in
  if is_available then
    try_except_PackageNotFoundError
      (v <~ version package_name ;;
       setitem2 "installed_packages" package_name (VStr v) info)
      (setitem2 "installed_packages" package_name (VStr "unknown") info)
  else ret info.

(** The dictionary display assigned to [info["system_resources"]]; its
    items are evaluated in order, and the first read that raises leaves
    the display. *)
Definition system_resources : M (gmap string Value) :=
  cpu_percent <~ read psutil_cpu_percent ;;
  memory_percent <~ read psutil_virtual_memory_percent ;;
  disk_usage <~ read (fun w => psutil_disk_usage_percent w
                       (if decide (os_name = "nt") then "C:" else "/")) ;;
  cpu_count <~ read psutil_cpu_count ;;
  total <~ read psutil_virtual_memory_total ;;
  ret (<["cpu_percent" := VNum cpu_percent]>
      (<["memory_percent" := VNum memory_percent]>
      (<["disk_usage" := VNum disk_usage]>
      (<["cpu_count" := VNum cpu_count]>
      (<["memory_total_gb" := VNum (round_gib total)]> ∅))))).

Definition gpu_dict (gpu : Z * string * num * num * num * num)
  : Value :=
  let '(id, name, memoryUsed, memoryTotal, temperature, load) := gpu in
  VDict (<["id" := VInt id]>
        (<["name" := VStr name]>
        (<["memory_used" := VNum memoryUsed]>
        (<["memory_total" := VNum memoryTotal]>
        (<["temperature" := VNum temperature]>
        (<["load" := VNum load]> ∅)))))).

Definition get_system_info : M (gmap string Value) :=
  self <~ get_self ;;
  g <~ get_globals ;;
  let info : gmap string Value :=
    <["session_id" := VStr (session_id self)]>
    (<["start_time" := VStr (isoformat (start_time self))]>
    (<["platform" := VStr platform_platform]>
    (<["python_version" := VStr sys_version]>
    (<["capabilities" := VDict (capabilities_dict (capabilities self))]>
    (<["installed_packages" := VDict ∅]> ∅))))) in
  info <~ for_each (packages_to_check g) check_package info ;;
  info <~ (if HAS_PSUTIL g then
             try_except
               (r <~ system_resources ;;
                ret (<["system_resources" := VDict r]> info))
               (fun e => ret info)
           else ret info) ;;
  info <~ (if HAS_GPUTIL g then
             try_except
               (gpus <~ read gputil_getGPUs ;;
                ret (<["gpus" := VList (gpu_dict <$> gpus)]> info))
               (fun e => ret info)
           else ret info) ;;
  ret info.

(** ** [MCPServer.install_missing_packages] *)

(** The body of [for package in packages].  The inner [try] either sets
    the outcome and leaves the iteration through [continue] (the [Some]
    case) or falls through after [PackageNotFoundError] ([None]). *)
Definition install_package (package : string) (results : gmap string string)
  : M (gmap string string) :=
  try_except
    (continued <~ try_except_PackageNotFoundError
        (_ <~ version package ;;
         ret (Some (<[package := "already_installed"]> results)))
        (ret None) ;;
     match continued with
     | Some results' => ret results'
     | None =>
         process <~ create_subprocess_exec
           [sys_executable; "-m"; "pip"; "install"; package] ;;
         if (returncode process =? 0)%Z then
           ret (<[package := "installed"]> results)
         else
           text <~ bytes_decode (stderr process) ;;
           ret (<[package := "failed: " +:+ text]> results)
     end)
    (fun e => ret (<[package := "error: " +:+ str_exn e]> results)).

Definition install_missing_packages (packages : list string)
  : M (gmap string string) :=
  let results : gmap string string := ∅ in
  for_each packages install_package results.

(** ** [MCPServer.run_code_quality_check] and [MCPServer.format_code] *)

(** [{"exit_code": process.returncode, "output": stdout.decode(),
      "errors": stderr.decode()}] *)
Definition tool_report (rc : Z) (output errors : string) : Value :=
  VDict (<["exit_code" := VInt rc]>
        (<["output" := VStr output]>
        (<["errors" := VStr errors]> ∅))).

(** [{"error": str(e)}] *)
Definition tool_error (e : exn) : Value :=
  VDict (<["error" := VStr (str_exn e)]> ∅).

(** One [try: ... except Exception as e: ...] block.  The source writes
    this block out once per tool; the blocks differ in the command line
    [argv], in the tool name [tool] and in the key [section]
    (["checks"] or ["formatters"]) only. *)
Definition run_tool (section tool : string) (argv : list string)
  (results : gmap string Value) : M (gmap string Value) :=
  try_except
    (process <~ create_subprocess_exec argv ;;
     output <~ bytes_decode (stdout process) ;;
     errors <~ bytes_decode (stderr process) ;;
     setitem2 section tool
       (tool_report (returncode process) output errors) results)
    (fun e => setitem2 section tool (tool_error e) results).

Definition run_code_quality_check (file_path : string)
  : M (gmap string Value) :=
  g <~ get_globals ;;
  let results : gmap string Value :=
    <["file" := VStr file_path]> (<["checks" := VDict ∅]> ∅) in
  found <~ path_exists file_path ;;
  if negb found then
    ret (<["error" := VStr "File not found"]> results)
  else
    results <~ (if HAS_PYLINT g then
                  run_tool "checks" "pylint" ["pylint"; file_path] results
                else ret results) ;;
    results <~ (if HAS_FLAKE8 g then
                  run_tool "checks" "flake8" ["flake8"; file_path] results
                else ret results) ;;
    results <~ (if HAS_BANDIT g then
                  run_tool "checks" "bandit"
                    ["bandit"; "-f"; "json"; file_path] results
                else ret results) ;;
    ret results.

Definition format_code (file_path : string) : M (gmap string Value) :=
  g <~ get_globals ;;
  let results : gmap string Value :=
    <["file" := VStr file_path]> (<["formatters" := VDict ∅]> ∅) in
  found <~ path_exists file_path ;;
  if negb found then
    ret (<["error" := VStr "File not found"]> results)
  else
    results <~ (if HAS_BLACK g then
                  run_tool "formatters" "black"
                    ["black"; "--check"; "--diff"; file_path] results
                else ret results) ;;
    results <~ (if HAS_ISORT g then
                  run_tool "formatters" "isort"
                    ["isort"; "--check-only"; "--diff"; file_path] results
                else ret results) ;;
    ret results.

(** ** [MCPServer.get_missing_packages_recommendations] *)

Definition recommend (missing : bool) (category : string)
  (packages : list string) (recommendations : gmap string (list string))
  : gmap string (list string) :=
  if missing then <[category := packages]> recommendations
  else recommendations.

Definition get_missing_packages_recommendations
  : M (gmap string (list string)) :=
  self <~ get_self ;;
  let c := capabilities self in
  let r : gmap string (list string) := ∅ in
  let r := recommend (negb (gpu_monitoring c)) "GPU Monitoring"
             ["GPUtil"; "psutil"] r in
  let r := recommend (negb (quantum_random c)) "Quantum Random"
             ["quantumrandom"] r in
  let r := recommend (negb (quantum_computing c)) "Quantum Computing"
             ["qiskit"; "qiskit-aer"] r in
  let r := recommend (negb (image_processing c)) "Image Processing"
             ["opencv-python"; "Pillow"] r in
  let r := recommend (negb (machine_learning c)) "Machine Learning"
             ["scikit-learn"; "numpy"; "pandas"] r in
  let r := recommend (negb (deep_learning c)) "Deep Learning"
             ["torch"; "tensorflow"] r in
  let r := recommend (negb (data_analysis c)) "Data Analysis"
             ["pandas"; "numpy"; "scipy"] r in
  let r := recommend (negb (visualization c)) "Visualization"
             ["matplotlib"; "seaborn"; "plotly"] r in
  let r := recommend (negb (profiling c)) "Profiling"
             ["memory-profiler"; "line-profiler"; "py-spy"] r in
  let r := recommend (negb (code_quality c)) "Code Quality"
             ["pylint"; "black"; "isort"; "flake8"; "bandit"] r in
  let r := recommend (negb (package_management c)) "Package Management"
             ["poetry"; "pipenv"; "pipdeptree"] r in
  ret r.

(** ** Vocabulary of the specification

    The definitions below are not code of the program: they name what
    the statements about it talk about. *)

(** The entry that one tool block leaves under the tool's name, read off
    the outcome of its launch. *)
Definition tool_entry (o : ExecOutcome) : Value :=
  match o with
  | ExecRaise msg => tool_error (Exception msg)
  | ExecDone rc out err =>
      match decode out with
      | inl msg => tool_error (Exception msg)
      | inr output =>
          match decode err with
          | inl msg => tool_error (Exception msg)
          | inr errors => tool_report rc output errors
          end
      end
  end.

(** The tools of a dispatch call whose flag is set, each with its command
    line, in the order of the source. *)
Definition quality_tools (g : DependencyFlags) (file_path : string)
  : list (string * list string) :=
  (if HAS_PYLINT g then [("pylint", ["pylint"; file_path])] else []) ++
  (if HAS_FLAKE8 g then [("flake8", ["flake8"; file_path])] else []) ++
  (if HAS_BANDIT g then [("bandit", ["bandit"; "-f"; "json"; file_path])]
   else []).

Definition format_tools (g : DependencyFlags) (file_path : string)
  : list (string * list string) :=
  (if HAS_BLACK g then
     [("black", ["black"; "--check"; "--diff"; file_path])] else []) ++
  (if HAS_ISORT g then
     [("isort", ["isort"; "--check-only"; "--diff"; file_path])] else []).

(** The world after the commands of [tools] have run one after the
    other, and the entries they leave in the dictionary [d]. *)
Fixpoint world_after (tools : list (string * list string)) (w : World)
  : World :=
  match tools with
  | [] => w
  | t :: tools' => world_after tools' (os_exec w t.2).2
  end.

Fixpoint entries_after (tools : list (string * list string)) (w : World)
  (d : gmap string Value) : gmap string Value :=
  match tools with
  | [] => d
  | t :: tools' =>
      entries_after tools' (os_exec w t.2).2
        (<[t.1 := tool_entry (os_exec w t.2).1]> d)
  end.

(** The state in which a computation that started in [s] and launched
    the commands [argvs] ends when the world has become [w]. *)
Definition launched (s : State) (w : World) (argvs : list (list string))
  : State :=
  {| globals := globals s; server := server s; world := w;
     exec_calls := exec_calls s ++ argvs |}.

(** The loop that the tool blocks of a dispatch call amount to. *)
Definition run_tools (section : string) (tools : list (string * list string))
  (results : gmap string Value) : M (gmap string Value) :=
  for_each tools (fun t => run_tool section t.1 t.2) results.

(** The command line of the installer for one package. *)
Definition pip_install (package : string) : list string :=
  [sys_executable; "-m"; "pip"; "install"; package].

(** The outcome that [install_missing_packages] records for a package
    whose installer was launched, read off the outcome of the launch. *)
Definition install_outcome (o : ExecOutcome) : string :=
  match o with
  | ExecRaise msg => "error: " +:+ msg
  | ExecDone rc out err =>
      if (rc =? 0)%Z then "installed"
      else match decode err with
           | inr text => "failed: " +:+ text
           | inl msg => "error: " +:+ msg
           end
  end.


(** The capabilities by name, the category under which
    [get_missing_packages_recommendations] lists each, and its value in
    a capability record. *)
Inductive Capability :=
| GpuMonitoring | QuantumRandom | QuantumComputing | ImageProcessing
| MachineLearning | DeepLearning | DataAnalysis | Visualization
| Profiling | CodeQuality | PackageManagement.

Definition category (c : Capability) : string :=
  match c with
  | GpuMonitoring => "GPU Monitoring"
  | QuantumRandom => "Quantum Random"
  | QuantumComputing => "Quantum Computing"
  | ImageProcessing => "Image Processing"
  | MachineLearning => "Machine Learning"
  | DeepLearning => "Deep Learning"
  | DataAnalysis => "Data Analysis"
  | Visualization => "Visualization"
  | Profiling => "Profiling"
  | CodeQuality => "Code Quality"
  | PackageManagement => "Package Management"
  end.

Definition enabled (caps : MCPCapabilities) (c : Capability) : bool :=
  match c with
  | GpuMonitoring => gpu_monitoring caps
  | QuantumRandom => quantum_random caps
  | QuantumComputing => quantum_computing caps
  | ImageProcessing => image_processing caps
  | MachineLearning => machine_learning caps
  | DeepLearning => deep_learning caps
  | DataAnalysis => data_analysis caps
  | Visualization => visualization caps
  | Profiling => profiling caps
  | CodeQuality => code_quality caps
  | PackageManagement => package_management caps
  end.

(** A computation keeps the frame when it leaves the module globals and
    the server object as it found them, whatever it returns or raises. *)
Definition keeps_frame {A} (m : M A) : Prop :=
  forall s, globals (m s).2 = globals s /\ server (m s).2 = server s.

(** A computation is silent when it leaves the whole state as it found
    it: no child process, no change of the world. *)
Definition silent {A} (m : M A) : Prop :=
  forall s, (m s).2 = s.

(** The operations of the server as calls, and the state a call or a
    sequence of calls leaves. *)
Inductive Call :=
| CallGetSystemInfo
| CallInstallMissingPackages (packages : list string)
| CallRunCodeQualityCheck (file_path : string)
| CallFormatCode (file_path : string)
| CallGetMissingPackagesRecommendations.

Definition run_call (c : Call) (s : State) : State :=
  match c with
  | CallGetSystemInfo => (get_system_info s).2
  | CallInstallMissingPackages packages =>
      (install_missing_packages packages s).2
  | CallRunCodeQualityCheck file_path => (run_code_quality_check file_path s).2
  | CallFormatCode file_path => (format_code file_path s).2
  | CallGetMissingPackagesRecommendations =>
      (get_missing_packages_recommendations s).2
  end.

Definition run_calls (cs : list Call) (s : State) : State :=
  fold_left (fun s c => run_call c s) cs s.

(** ** [MCPServer._format_capabilities] *)

(** [sep.join(l)] *)
Fixpoint join (sep : string) (l : list string) : string :=
  match l with
  | [] => ""
  | x :: l' =>
      match l' with
      | [] => x
      | _ :: _ => x +:+ sep +:+ join sep l'
      end
  end.

(** [if enabled: caps.append(label)] *)
Definition append_if (enabled : bool) (label : string) (caps : list string)
  : list string :=
  if enabled then caps ++ [label] else caps.

(** The list [caps] that the method builds before joining it. *)
Definition capability_labels (c : MCPCapabilities) : list string :=
  let caps : list string := [] in
  let caps := append_if (gpu_monitoring c) "GPU Monitoring" caps in
  let caps := append_if (quantum_random c) "Quantum Random" caps in
  let caps := append_if (quantum_computing c) "Quantum Computing" caps in
  let caps := append_if (image_processing c) "Image Processing" caps in
  let caps := append_if (machine_learning c) "Machine Learning" caps in
  let caps := append_if (deep_learning c) "Deep Learning" caps in
  let caps := append_if (data_analysis c) "Data Analysis" caps in
  let caps := append_if (visualization c) "Visualization" caps in
  let caps := append_if (profiling c) "Profiling" caps in
  let caps := append_if (code_quality c) "Code Quality" caps in
  let caps := append_if (package_management c) "Package Management" caps in
  caps.

(** [return ", ".join(caps) if caps else "Basic functionality only"] *)
Definition _format_capabilities : M string :=
  self <~ get_self ;;
  let caps := capability_labels (capabilities self) in
  ret (match caps with
       | _ :: _ => join ", " caps
       | [] => "Basic functionality only"
       end).

(** ** Further vocabulary *)



Definition with_section (k : string) (section : option Value)
  (info : gmap string Value) : gmap string Value :=
  match section with
  | Some v => <[k := v]> info
  | None => info
  end.


(** The forms of the outcome of a package in the result of
    [install_missing_packages]. *)
Definition outcome_form (v : string) : Prop :=
  v = "already_installed" \/ v = "installed" \/
  (exists text : string, v = "failed: " +:+ text) \/
  (exists text : string, v = "error: " +:+ text).

(** The forms of the entry of a tool in the result of a dispatch call. *)
Definition entry_form (v : Value) : Prop :=
  (exists (rc : Z) (output errors : string),
     v = tool_report rc output errors) \/
  (exists msg : string, v = VDict (<["error" := VStr msg]> ∅)).

End Model.

(** ** Loading of the module

    The module body runs its import statements when it is loaded.  An
    import statement is named by what it imports ([import a.b] by
    ["a.b"], [from a import b] by ["a.b"]); the interpreter's answer to
    it is an [ImportOutcome]: the import works, raises [ImportError], or
    raises another exception.  The answer is taken to depend on the
    statement alone, so a statement that occurs twice gets the same
    answer twice. *)

Inductive ImportOutcome :=
| Imported
| ImportError (msg : string)
| ImportCrash (msg : string).

(** The imports at the head of the module, outside any [try]. *)
Definition required_imports : list string :=
  ["asyncio"; "json"; "logging"; "os"; "sys"; "subprocess"; "platform";
   "time"; "traceback"; "warnings"; "typing.Dict"; "typing.List";
   "typing.Optional"; "typing.Any"; "typing.Union"; "pathlib.Path";
   "socket"; "threading"; "uuid"; "datetime.datetime";
   "dataclasses.dataclass"; "importlib"; "importlib.util"; "pkg_resources";
   "importlib.metadata.version"; "importlib.metadata.PackageNotFoundError"].

(** One block [try: import ...; HAS_X = True / except ImportError:
    HAS_X = False]: the flag it assigns and the imports of its [try]
    body.  A block whose handler holds a second [try] (the block of
    [HAS_TOML]) has a second list of imports, tried when the first
    raises [ImportError]. *)
Record OptionalImport := {
  flag : string;
  alternatives : list (list string)
}.

(** The blocks of the module, in the order of the source. *)
Definition optional_imports : list OptionalImport :=
  [
    {| flag := "HAS_PSUTIL"; alternatives := [["psutil"]] |};
    {| flag := "HAS_REQUESTS"; alternatives := [["requests"]] |};
    {| flag := "HAS_NUMPY"; alternatives := [["numpy"]] |};
    {| flag := "HAS_GPUTIL"; alternatives := [["GPUtil"]] |};
    {| flag := "HAS_QUANTUMRANDOM"; alternatives := [["quantumrandom"]] |};
    {| flag := "HAS_QISKIT";
       alternatives := [["qiskit"; "qiskit.quantum_info.random_state"]] |};
    {| flag := "HAS_MATPLOTLIB"; alternatives := [["matplotlib.pyplot"]] |};
    {| flag := "HAS_OPENCV"; alternatives := [["cv2"]] |};
    {| flag := "HAS_TORCH"; alternatives := [["torch"]] |};
    {| flag := "HAS_TENSORFLOW"; alternatives := [["tensorflow"]] |};
    {| flag := "HAS_PANDAS"; alternatives := [["pandas"]] |};
    {| flag := "HAS_SCIPY"; alternatives := [["scipy"]] |};
    {| flag := "HAS_SKLEARN"; alternatives := [["sklearn"]] |};
    {| flag := "HAS_JOBLIB"; alternatives := [["joblib"]] |};
    {| flag := "HAS_PICKLE"; alternatives := [["pickle"]] |};
    {| flag := "HAS_JSONLINES"; alternatives := [["jsonlines"]] |};
    {| flag := "HAS_TOML"; alternatives := [["toml"]; ["tomllib"]] |};
    {| flag := "HAS_YAML"; alternatives := [["yaml"]] |};
    {| flag := "HAS_DISTUTILS"; alternatives := [["distutils.version"]] |};
    {| flag := "HAS_VIRTUALENV"; alternatives := [["virtualenv"]] |};
    {| flag := "HAS_CONDA"; alternatives := [["conda"]] |};
    {| flag := "HAS_POETRY"; alternatives := [["poetry"]] |};
    {| flag := "HAS_PIPENV"; alternatives := [["pipenv"]] |};
    {| flag := "HAS_PIPDEPTREE"; alternatives := [["pipdeptree"]] |};
    {| flag := "HAS_SAFETY"; alternatives := [["safety"]] |};
    {| flag := "HAS_BANDIT"; alternatives := [["bandit"]] |};
    {| flag := "HAS_PYLINT"; alternatives := [["pylint"]] |};
    {| flag := "HAS_BLACK"; alternatives := [["black"]] |};
    {| flag := "HAS_ISORT"; alternatives := [["isort"]] |};
    {| flag := "HAS_FLAKE8"; alternatives := [["flake8"]] |};
    {| flag := "HAS_PROFILING"; alternatives := [["profiling"]] |};
    {| flag := "HAS_MEMORY_PROFILER"; alternatives := [["memory_profiler"]] |};
    {| flag := "HAS_LINE_PROFILER"; alternatives := [["line_profiler"]] |};
    {| flag := "HAS_JSONLINES_ALT"; alternatives := [["jsonlines"]] |};
    {| flag := "HAS_TOML_ALT"; alternatives := [["toml"]] |};
    {| flag := "HAS_DISTUTILS_ALT"; alternatives := [["distutils.version"]] |};
    {| flag := "HAS_VIRTUALENV_ALT"; alternatives := [["virtualenv"]] |};
    {| flag := "HAS_CONDA_ALT"; alternatives := [["conda"]] |};
    {| flag := "HAS_POETRY_ALT"; alternatives := [["poetry"]] |};
    {| flag := "HAS_PIPENV_ALT"; alternatives := [["pipenv"]] |};
    {| flag := "HAS_PIPDEPTREE_ALT"; alternatives := [["pipdeptree"]] |};
    {| flag := "HAS_SAFETY_ALT"; alternatives := [["safety"]] |};
    {| flag := "HAS_BANDIT_ALT"; alternatives := [["bandit"]] |};
    {| flag := "HAS_PYLINT_ALT"; alternatives := [["pylint"]] |};
    {| flag := "HAS_BLACK_ALT"; alternatives := [["black"]] |};
    {| flag := "HAS_ISORT_ALT"; alternatives := [["isort"]] |};
    {| flag := "HAS_FLAKE8_ALT"; alternatives := [["flake8"]] |};
    {| flag := "HAS_PROFILING_ALT"; alternatives := [["profiling"]] |};
    {| flag := "HAS_MEMORY_PROFILER_ALT";
       alternatives := [["memory_profiler"]] |};
    {| flag := "HAS_LINE_PROFILER_ALT"; alternatives := [["line_profiler"]] |}
  ].

(** The statements of one [try] body: the first import that does not
    work decides. *)
Fixpoint import_all (imp : string -> ImportOutcome) (targets : list string)
  : ImportOutcome :=
  match targets with
  | [] => Imported
  | t :: targets' =>
      match imp t with
      | Imported => import_all imp targets'
      | o => o
      end
  end.

(** The value a block assigns to its flag; an exception other than
    [ImportError] leaves the block. *)
Fixpoint try_import (imp : string -> ImportOutcome)
  (alts : list (list string)) : Res bool :=
  match alts with
  | [] => Ok false
  | targets :: alts' =>
      match import_all imp targets with
      | Imported => Ok true
      | ImportError _ => try_import imp alts'
      | ImportCrash msg => Raised (Exception msg)
      end
  end.

Fixpoint run_required (imp : string -> ImportOutcome)
  (targets : list string) : Res unit :=
  match targets with
  | [] => Ok tt
  | t :: targets' =>
      match imp t with
      | Imported => run_required imp targets'
      | ImportError msg => Raised (Exception msg)
      | ImportCrash msg => Raised (Exception msg)
      end
  end.

Fixpoint run_optional (imp : string -> ImportOutcome)
  (blocks : list OptionalImport) (d : gmap string bool)
  : Res (gmap string bool) :=
  match blocks with
  | [] => Ok d
  | b :: blocks' =>
      match try_import imp (alternatives b) with
      | Ok v => run_optional imp blocks' (<[flag b := v]> d)
      | Raised e => Raised e
      end
  end.

(** The load of the module: the dictionary of the flags it defines, or
    the exception that leaves the module body. *)
Definition load_module (imp : string -> ImportOutcome)
  : Res (gmap string bool) :=
  match run_required imp required_imports with
  | Ok _ => run_optional imp optional_imports ∅
  | Raised e => Raised e
  end.

(** The flags that the class reads, looked up in the module globals;
    [None] when one of them is not defined ([NameError]). *)
Definition flags_of_globals (d : gmap string bool)
  : option DependencyFlags :=
  psutil ← d !! "HAS_PSUTIL";
  requests ← d !! "HAS_REQUESTS";
  numpy ← d !! "HAS_NUMPY";
  gputil ← d !! "HAS_GPUTIL";
  quantumrandom ← d !! "HAS_QUANTUMRANDOM";
  qiskit ← d !! "HAS_QISKIT";
  matplotlib ← d !! "HAS_MATPLOTLIB";
  opencv ← d !! "HAS_OPENCV";
  torch ← d !! "HAS_TORCH";
  tensorflow ← d !! "HAS_TENSORFLOW";
  pandas ← d !! "HAS_PANDAS";
  scipy ← d !! "HAS_SCIPY";
  sklearn ← d !! "HAS_SKLEARN";
  joblib ← d !! "HAS_JOBLIB";
  jsonlines ← d !! "HAS_JSONLINES";
  toml ← d !! "HAS_TOML";
  yaml ← d !! "HAS_YAML";
  virtualenv ← d !! "HAS_VIRTUALENV";
  conda ← d !! "HAS_CONDA";
  poetry ← d !! "HAS_POETRY";
  pipenv ← d !! "HAS_PIPENV";
  pipdeptree ← d !! "HAS_PIPDEPTREE";
  safety ← d !! "HAS_SAFETY";
  bandit ← d !! "HAS_BANDIT";
  pylint ← d !! "HAS_PYLINT";
  black ← d !! "HAS_BLACK";
  isort ← d !! "HAS_ISORT";
  flake8 ← d !! "HAS_FLAKE8";
  profiling ← d !! "HAS_PROFILING";
  memory_profiler ← d !! "HAS_MEMORY_PROFILER";
  line_profiler ← d !! "HAS_LINE_PROFILER";
  Some {|
    HAS_PSUTIL := psutil;
    HAS_REQUESTS := requests;
    HAS_NUMPY := numpy;
    HAS_GPUTIL := gputil;
    HAS_QUANTUMRANDOM := quantumrandom;
    HAS_QISKIT := qiskit;
    HAS_MATPLOTLIB := matplotlib;
    HAS_OPENCV := opencv;
    HAS_TORCH := torch;
    HAS_TENSORFLOW := tensorflow;
    HAS_PANDAS := pandas;
    HAS_SCIPY := scipy;
    HAS_SKLEARN := sklearn;
    HAS_JOBLIB := joblib;
    HAS_JSONLINES := jsonlines;
    HAS_TOML := toml;
    HAS_YAML := yaml;
    HAS_VIRTUALENV := virtualenv;
    HAS_CONDA := conda;
    HAS_POETRY := poetry;
    HAS_PIPENV := pipenv;
    HAS_PIPDEPTREE := pipdeptree;
    HAS_SAFETY := safety;
    HAS_BANDIT := bandit;
    HAS_PYLINT := pylint;
    HAS_BLACK := black;
    HAS_ISORT := isort;
    HAS_FLAKE8 := flake8;
    HAS_PROFILING := profiling;
    HAS_MEMORY_PROFILER := memory_profiler;
    HAS_LINE_PROFILER := line_profiler
  |}.

(** ** A small concrete environment

    Used to run the definitions on concrete inputs.  A world lists the
    installed distributions and the existing files.  A command line of
    five words is a run of the installer, which exits 0 and installs,
    except for the package ["broken"] (exit code 1,
    ["boom"] on standard error) and the package ["ghost"] (the launch
    itself fails); [pylint] and [black] run, [flake8] cannot be launched,
    and every other command exits with code 2. *)

Record DemoWorld := {
  installed : list string;
  files : list string;
  sensors : bool
}.

Definition demo_exec (w : DemoWorld) (argv : list string)
  : ExecOutcome * DemoWorld :=
  match argv with
  | [_; _; _; _; package] =>
      if String.eqb package "broken" then
        (ExecDone 1 [] (String.list_byte_of_string "boom"), w)
      else if String.eqb package "ghost" then
        (ExecRaise "[Errno 2] No such file or directory", w)
      else
        (ExecDone 0 (String.list_byte_of_string "Successfully installed") [],
         {| installed := package :: installed w; files := files w;
            sensors := sensors w |})
  | tool :: _ =>
      if String.eqb tool "flake8" then
        (ExecRaise "[Errno 2] No such file or directory: 'flake8'", w)
      else if String.eqb tool "pylint" || String.eqb tool "black" then
        (ExecDone 0 (String.list_byte_of_string "ok") [], w)
      else (ExecDone 2 [] (String.list_byte_of_string "usage"), w)
  | [] => (ExecRaise "empty command", w)
  end.

Definition demo_decode (b : list Byte.byte) : string + string :=
  if forallb (fun x => (Byte.to_N x <? 128)%N) b
  then inr (String.string_of_list_byte b)
  else inl "'utf-8' codec can't decode byte".

Definition demo_sensor (w : DemoWorld) : string + Z :=
  if sensors w then inr 42 else inl "sensor failure".

Definition demo_env : Env := {|
  World := DemoWorld;
  num := Z;
  datetime := Z;
  isoformat := fun _ => "2024-01-01T00:00:00";
  os_version := fun w name =>
    if existsb (String.eqb name) (installed w) then Some "1.0" else None;
  os_exec := demo_exec;
  os_path_exists := fun w p => existsb (String.eqb p) (files w);
  decode := demo_decode;
  sys_executable := "/usr/bin/python3";
  sys_version := "3.11.4";
  platform_platform := "Linux-6.1-x86_64";
  os_name := "posix";
  psutil_cpu_percent := demo_sensor;
  psutil_virtual_memory_percent := demo_sensor;
  psutil_virtual_memory_total := demo_sensor;
  psutil_disk_usage_percent := fun w _ => demo_sensor w;
  psutil_cpu_count := demo_sensor;
  round_gib := fun x => x;
  gputil_getGPUs := fun w =>
    if sensors w then inr [(0, "GPU-0", 1, 8, 50, 0)]
    else inl "nvidia-smi failed";
  uuid4 := fun _ => "00000000-0000-4000-8000-000000000000";
  datetime_now := fun _ => 0
|}.

(** Module globals with every flag cleared, and variations of it. *)
Definition no_flags : DependencyFlags :=
  Build_DependencyFlags false false false false false false false false
    false false false false false false false false false false false false
    false false false false false false false false false false false.

Definition all_flags : DependencyFlags :=
  Build_DependencyFlags true true true true true true true true
    true true true true true true true true true true true true
    true true true true true true true true true true true.

Definition demo_world : DemoWorld :=
  {| installed := ["psutil"; "X"]; files := ["app.py"]; sensors := false |}.

Definition demo_state (g : DependencyFlags) : @State demo_env :=
  MCPServer_init (E := demo_env) g demo_world [].


Definition bandit_only : DependencyFlags :=
  Build_DependencyFlags false false false false false false false false
    false false false false false false false false false false false false
    false false false true false false false false false false false.

Definition pylint_only : DependencyFlags :=
  Build_DependencyFlags false false false false false false false false
    false false false false false false false false false false false false
    false false false false true false false false false false false.


(** A second environment, in which every child process writes a byte
    that is not valid UTF-8: the installer exits with code 1 and the
    byte on standard error, any other command exits with code 0 and the
    byte on standard output. *)
Definition garbled_exec (w : DemoWorld) (argv : list string)
  : ExecOutcome * DemoWorld :=
  match argv with
  | [_; _; _; _; _] => (ExecDone 1 [] [Byte.xff], w)
  | _ => (ExecDone 0 [Byte.xff] [], w)
  end.

Definition garbled_env : Env := {|
  World := DemoWorld;
  num := Z;
  datetime := Z;
  isoformat := fun _ => "2024-01-01T00:00:00";
  os_version := fun w name =>
    if existsb (String.eqb name) (installed w) then Some "1.0" else None;
  os_exec := garbled_exec;
  os_path_exists := fun w p => existsb (String.eqb p) (files w);
  decode := demo_decode;
  sys_executable := "/usr/bin/python3";
  sys_version := "3.11.4";
  platform_platform := "Linux-6.1-x86_64";
  os_name := "posix";
  psutil_cpu_percent := demo_sensor;
  psutil_virtual_memory_percent := demo_sensor;
  psutil_virtual_memory_total := demo_sensor;
  psutil_disk_usage_percent := fun w _ => demo_sensor w;
  psutil_cpu_count := demo_sensor;
  round_gib := fun x => x;
  gputil_getGPUs := fun w => inl "nvidia-smi failed";
  uuid4 := fun _ => "00000000-0000-4000-8000-000000000000";
  datetime_now := fun _ => 0
|}.

Definition garbled_state (g : DependencyFlags) : @State garbled_env :=
  MCPServer_init (E := garbled_env) g demo_world [].

(** Interpreters for the load of the module: the required imports
    work except those of [missing], the imports of [crashing] raise an
    exception that is not [ImportError], and of the other imports
    exactly those of [available] work. *)
Definition demo_importer (missing crashing available : list string)
  : string -> ImportOutcome :=
  fun t =>
    if existsb (String.eqb t) missing then
      ImportError ("No module named " +:+ t)
    else if existsb (String.eqb t) crashing then
      ImportCrash "initialization failed"
    else if existsb (String.eqb t) (required_imports ++ available) then
      Imported
    else ImportError ("No module named " +:+ t).

(** An interpreter with no optional module but [tomllib], the module
    globals that the load gives on it and the flags read from them. *)
Definition tomllib_importer : string -> ImportOutcome :=
  demo_importer [] [] ["tomllib"].

Definition tomllib_globals : gmap string bool :=
  match load_module tomllib_importer with
  | Ok d => d
  | Raised _ => ∅
  end.

Definition tomllib_flags : DependencyFlags :=
  default no_flags (flags_of_globals tomllib_globals).

(** * Properties *)

Section Properties.
Context `{E : Env}.

Local Abbreviation Value := (Value num).

(** ** The monad *)

Lemma bind_Ok {A B} (m : M A) (k : A -> M B) s a s' :
  m s = (Ok a, s') -> bind m k s = k a s'.
Proof. intros H. unfold bind. by rewrite H. Qed.

Lemma for_each_app {A B} (l1 l2 : list A) (body : A -> B -> M B) acc s :
  for_each (l1 ++ l2) body acc s
  = bind (for_each l1 body acc) (for_each l2 body) s.
Proof.
  revert acc s. induction l1 as [|x l1 IH]; intros acc s; simpl.
  - reflexivity.
  - unfold bind. destruct (body x acc s) as [[acc'|e] s1].
    + exact (IH acc' s1).
    + reflexivity.
Qed.

(** ** Frame rules: no primitive and no combinator writes the module
    globals or the server object *)

Create HintDb frame discriminated.

Lemma frame_ret {A} (a : A) : keeps_frame (ret a).
Proof. by intros s. Qed.

Lemma frame_raise {A} e : keeps_frame (raise (A := A) e).
Proof. by intros s. Qed.

Lemma frame_bind {A B} (m : M A) (k : A -> M B) :
  keeps_frame m -> (forall a, keeps_frame (k a)) -> keeps_frame (bind m k).
Proof.
  intros Hm Hk s. unfold bind. specialize (Hm s).
  destruct (m s) as [[a|e] s1]; simpl in *.
  - destruct (Hk a s1) as [-> ->]. exact Hm.
  - exact Hm.
Qed.

Lemma frame_try_except {A} (m : M A) h :
  keeps_frame m -> (forall e, keeps_frame (h e)) ->
  keeps_frame (try_except m h).
Proof.
  intros Hm Hh s. unfold try_except. specialize (Hm s).
  destruct (m s) as [[a|e] s1]; simpl in *.
  - exact Hm.
  - destruct (Hh e s1) as [-> ->]. exact Hm.
Qed.

Lemma frame_try_except_PackageNotFoundError {A} (m h : M A) :
  keeps_frame m -> keeps_frame h ->
  keeps_frame (try_except_PackageNotFoundError m h).
Proof.
  intros Hm Hh s. unfold try_except_PackageNotFoundError. specialize (Hm s).
  destruct (m s) as [[a|[name|msg]] s1]; simpl in *; try exact Hm.
  destruct (Hh s1) as [-> ->]. exact Hm.
Qed.

Lemma frame_for_each {A B} (l : list A) (body : A -> B -> M B) acc :
  (forall x b, keeps_frame (body x b)) -> keeps_frame (for_each l body acc).
Proof.
  intros Hb. revert acc. induction l as [|x l IH]; intros acc; simpl.
  - apply frame_ret.
  - apply frame_bind; [apply Hb | exact IH].
Qed.

Lemma frame_get_globals : keeps_frame get_globals.
Proof. by intros s. Qed.

Lemma frame_get_self : keeps_frame get_self.
Proof. by intros s. Qed.

Lemma frame_version name : keeps_frame (version name).
Proof. intros s. unfold version. by destruct (os_version _ _). Qed.

Lemma frame_create_subprocess_exec argv :
  keeps_frame (create_subprocess_exec argv).
Proof.
  intros s. unfold create_subprocess_exec.
  by destruct (os_exec (world s) argv) as [[msg|rc out err] w].
Qed.

Lemma frame_bytes_decode b : keeps_frame (bytes_decode b).
Proof.
  unfold bytes_decode.
  destruct (decode b); [apply frame_raise | apply frame_ret].
Qed.

Lemma frame_path_exists p : keeps_frame (path_exists p).
Proof. by intros s. Qed.

Lemma frame_read {A} (f : World -> string + A) : keeps_frame (read f).
Proof. intros s. unfold read. by destruct (f (world s)). Qed.

Lemma frame_setitem2 k1 k2 v d : keeps_frame (setitem2 k1 k2 v d).
Proof.
  unfold setitem2. destruct (d !! k1) as [[]|];
    first [apply frame_raise | apply frame_ret].
Qed.

#[local] Hint Resolve frame_ret frame_raise frame_bind frame_try_except
  frame_try_except_PackageNotFoundError frame_for_each frame_get_globals
  frame_get_self frame_version frame_create_subprocess_exec
  frame_bytes_decode frame_path_exists frame_read frame_setitem2 : frame.

Ltac frame_step :=
  match goal with
  | |- forall _, _ => intro
  | |- keeps_frame (bind _ _) => apply frame_bind
  | |- keeps_frame (try_except _ _) => apply frame_try_except
  | |- keeps_frame (try_except_PackageNotFoundError _ _) =>
      apply frame_try_except_PackageNotFoundError
  | |- keeps_frame (for_each _ _ _) => apply frame_for_each
  | |- keeps_frame (if ?b then _ else _) => destruct b
  | |- keeps_frame (match ?x with _ => _ end) => destruct x
  | |- _ => solve [auto with frame]
  | |- _ => progress cbv beta
  end.

Ltac solve_frame := repeat frame_step.

Lemma frame_run_tool section tool argv results :
  keeps_frame (run_tool section tool argv results).
Proof. unfold run_tool. solve_frame. Qed.

Lemma frame_install_package package results :
  keeps_frame (install_package package results).
Proof. unfold install_package. solve_frame. Qed.

Lemma frame_check_package entry info : keeps_frame (check_package entry info).
Proof. unfold check_package. destruct entry. solve_frame. Qed.

Lemma frame_system_resources : keeps_frame system_resources.
Proof. unfold system_resources. solve_frame. Qed.

#[local] Hint Resolve frame_run_tool frame_install_package
  frame_check_package frame_system_resources : frame.

Lemma frame_get_system_info : keeps_frame get_system_info.
Proof. unfold get_system_info. solve_frame. Qed.

Lemma frame_install_missing_packages packages :
  keeps_frame (install_missing_packages packages).
Proof. unfold install_missing_packages. solve_frame. Qed.

Lemma frame_run_code_quality_check file_path :
  keeps_frame (run_code_quality_check file_path).
Proof. unfold run_code_quality_check. solve_frame. Qed.

Lemma frame_format_code file_path : keeps_frame (format_code file_path).
Proof. unfold format_code. solve_frame. Qed.

Lemma frame_get_missing_packages_recommendations :
  keeps_frame get_missing_packages_recommendations.
Proof. unfold get_missing_packages_recommendations. solve_frame. Qed.

Lemma frame_run_call c s :
  globals (run_call c s) = globals s /\ server (run_call c s) = server s.
Proof.
  destruct c; simpl.
  - apply frame_get_system_info.
  - apply frame_install_missing_packages.
  - apply frame_run_code_quality_check.
  - apply frame_format_code.
  - apply frame_get_missing_packages_recommendations.
Qed.

Lemma frame_run_calls cs s :
  globals (run_calls cs s) = globals s /\ server (run_calls cs s) = server s.
Proof.
  unfold run_calls. revert s. induction cs as [|c cs IH]; intros s; simpl.
  - done.
  - destruct (IH (run_call c s)) as [-> ->]. apply frame_run_call.
Qed.

(** ** Capability detection *)

(** C1: [_detect_capabilities] returns, without touching the state, the
    capability record given by the fixed table over the dependency
    flags (gpu_monitoring = GPUTIL and PSUTIL, ..., package_management =
    POETRY or PIPENV or PIPDEPTREE), and any run from a state with the
    same flags returns the identical record. *)
Theorem detect_capabilities_table (s : State) :
  exists c : MCPCapabilities,
    _detect_capabilities s = (Ok c, s) /\
    gpu_monitoring c = HAS_GPUTIL (globals s) && HAS_PSUTIL (globals s) /\
    quantum_random c = HAS_QUANTUMRANDOM (globals s) /\
    quantum_computing c = HAS_QISKIT (globals s) /\
    image_processing c = HAS_OPENCV (globals s) /\
    machine_learning c = HAS_SKLEARN (globals s) && HAS_NUMPY (globals s) /\
    deep_learning c = HAS_TORCH (globals s) || HAS_TENSORFLOW (globals s) /\
    data_analysis c = HAS_PANDAS (globals s) && HAS_NUMPY (globals s) /\
    visualization c = HAS_MATPLOTLIB (globals s) /\
    profiling c = HAS_PROFILING (globals s) || HAS_MEMORY_PROFILER (globals s)
                  || HAS_LINE_PROFILER (globals s) /\
    code_quality c = HAS_PYLINT (globals s) || HAS_BLACK (globals s)
                     || HAS_ISORT (globals s) || HAS_FLAKE8 (globals s) /\
    package_management c = HAS_POETRY (globals s) || HAS_PIPENV (globals s)
                           || HAS_PIPDEPTREE (globals s) /\
    (forall s' : State, globals s' = globals s ->
       _detect_capabilities s' = (Ok c, s')).
Proof.
  exists (detect_capabilities (globals s)).
  repeat split.
  intros s' Hg. unfold _detect_capabilities, bind, get_globals, ret.
  by rewrite Hg.
Qed.

(** C9: the constructor stores the capabilities detected from the flags;
    every operation, from any state, leaves the module flags and the
    server object (capabilities, session identifier, start time) as they
    were; hence after any sequence of operations the flags are those of
    startup and the capabilities are still the ones detected then. *)
Theorem snapshot_never_mutated (g : DependencyFlags) (w : World)
  (cs : list Call) :
  let s0 := MCPServer_init g w [] in
  let s := run_calls cs s0 in
  (globals s0 = g /\ capabilities (server s0) = detect_capabilities g) /\
  (forall (c : Call) (s1 : State),
     globals (run_call c s1) = globals s1 /\
     capabilities (server (run_call c s1)) = capabilities (server s1) /\
     session_id (server (run_call c s1)) = session_id (server s1) /\
     start_time (server (run_call c s1)) = start_time (server s1)) /\
  globals s = g /\
  capabilities (server s) = detect_capabilities g /\
  session_id (server s) = session_id (server s0) /\
  start_time (server s) = start_time (server s0).
Proof.
  intros s0 s. split; [done|]. split.
  - intros c s1. destruct (frame_run_call c s1) as [-> ->]. done.
  - destruct (frame_run_calls cs s0) as [Hg Hs]. fold s in Hg, Hs.
    rewrite Hg, Hs. done.
Qed.

(** ** Recommendations *)

Lemma recommend_lookup_ne b k l (r : gmap string (list string)) k' :
  k <> k' -> recommend b k l r !! k' = r !! k'.
Proof.
  intros Hne. unfold recommend. destruct b; [|done].
  by rewrite lookup_insert_ne.
Qed.

Lemma recommend_lookup_eq l (r : gmap string (list string)) k :
  recommend true k l r !! k = Some l.
Proof. unfold recommend. by rewrite lookup_insert_eq. Qed.

Lemma recommend_lookup_Some b k l (r : gmap string (list string)) k' x :
  recommend b k l r !! k' = Some x ->
  (b = true /\ k' = k /\ x = l) \/ r !! k' = Some x.
Proof.
  unfold recommend. destruct b; [|by right].
  destruct (decide (k = k')) as [->|Hne].
  - rewrite lookup_insert_eq. intros [= <-]. by left.
  - rewrite lookup_insert_ne by done. by right.
Qed.

(** C6: [get_missing_packages_recommendations] reads the capabilities of
    the server only and leaves the state untouched; the keys of its
    result are exactly the categories of the capabilities that are
    false; each key is mapped to a non-empty list that depends on the
    key alone; with every capability true the result is empty. *)
Theorem recommendations_exactly_missing (s : State) :
  exists r : gmap string (list string),
    get_missing_packages_recommendations s = (Ok r, s) /\
    (forall k : string,
       is_Some (r !! k) <->
       exists c : Capability,
         k = category c /\ enabled (capabilities (server s)) c = false) /\
    (forall (k : string) (l : list string), r !! k = Some l -> l <> []) /\
    (forall (s' : State) (r' : gmap string (list string)) (k : string)
            (l l' : list string),
       get_missing_packages_recommendations s' = (Ok r', s') ->
       r !! k = Some l -> r' !! k = Some l' -> l = l') /\
    (forall s' : State,
       capabilities (server s') = capabilities (server s) ->
       (get_missing_packages_recommendations s').1 = Ok r) /\
    ((forall c : Capability, enabled (capabilities (server s)) c = true) ->
     r = ∅).
Proof.
  eexists. split; [reflexivity|].
  set (caps := capabilities (server s)).
  split; [|split; [|split; [|split]]].
  - intros k. split.
    + intros [l Hl].
      repeat (apply recommend_lookup_Some in Hl
                as [(Hb & -> & _)|Hl];
              [apply negb_true_iff in Hb;
               first [ by exists GpuMonitoring | by exists QuantumRandom
                     | by exists QuantumComputing | by exists ImageProcessing
                     | by exists MachineLearning | by exists DeepLearning
                     | by exists DataAnalysis | by exists Visualization
                     | by exists Profiling | by exists CodeQuality
                     | by exists PackageManagement ] |]).
      by rewrite lookup_empty in Hl.
    + intros [c [-> Hc]].
      destruct c; simpl in Hc; fold caps; rewrite Hc; cbn [negb category];
        rewrite ?recommend_lookup_ne by done;
        rewrite recommend_lookup_eq; by eexists.
  - intros k l Hl.
    repeat (apply recommend_lookup_Some in Hl as [(_ & _ & ->)|Hl]; [done|]).
    by rewrite lookup_empty in Hl.
  - intros s' r' k l l' [= <-] Hl Hl'.
    repeat (apply recommend_lookup_Some in Hl as [(_ & -> & ->)|Hl];
            [ rewrite ?recommend_lookup_ne in Hl' by done;
              apply recommend_lookup_Some in Hl' as [(_ & _ & ->)|Hl'];
              [done|];
              rewrite ?recommend_lookup_ne in Hl' by done;
              by rewrite ?lookup_empty in Hl' |]).
    by rewrite lookup_empty in Hl.
  - intros s' Hs'. unfold get_missing_packages_recommendations, bind, get_self.
    simpl. by rewrite Hs'.
  - intros Hall. fold caps.
    rewrite (Hall GpuMonitoring : gpu_monitoring caps = true),
      (Hall QuantumRandom : quantum_random caps = true),
      (Hall QuantumComputing : quantum_computing caps = true),
      (Hall ImageProcessing : image_processing caps = true),
      (Hall MachineLearning : machine_learning caps = true),
      (Hall DeepLearning : deep_learning caps = true),
      (Hall DataAnalysis : data_analysis caps = true),
      (Hall Visualization : visualization caps = true),
      (Hall Profiling : profiling caps = true),
      (Hall CodeQuality : code_quality caps = true),
      (Hall PackageManagement : package_management caps = true).
    reflexivity.
Qed.

(** ** Dispatch of the external tools *)

Lemma launched_nil (s : State) : launched s (world s) [] = s.
Proof. destruct s. unfold launched. simpl. by rewrite app_nil_r. Qed.

Lemma launched_launched s w1 l1 w2 l2 :
  launched (launched s w1 l1) w2 l2 = launched s w2 (l1 ++ l2).
Proof. unfold launched. simpl. by rewrite app_assoc. Qed.

Lemma bind_ext {A B} (m m' : M A) (k k' : A -> M B) s :
  m s = m' s -> (forall a s', k a s' = k' a s') -> bind m k s = bind m' k' s.
Proof.
  intros Hm Hk. unfold bind. rewrite Hm.
  destruct (m' s) as [[a|e] s']; [apply Hk | reflexivity].
Qed.

Lemma bind_ret_r {A} (m : M A) s : bind m (fun a => ret a) s = m s.
Proof. unfold bind, ret. by destruct (m s) as [[a|e] s']. Qed.

(** One tool block: it always returns, with the entry of the launch
    outcome stored under the tool's name and one more launch made. *)
Lemma run_tool_spec section tool argv results d s :
  results !! section = Some (VDict d) ->
  run_tool section tool argv results s
  = (Ok (<[section :=
            VDict (<[tool := tool_entry (os_exec (world s) argv).1]> d)]>
           results),
     launched s (os_exec (world s) argv).2 [argv]).
Proof.
  intros Hd.
  unfold run_tool, try_except, bind, create_subprocess_exec, tool_entry,
    launched.
  destruct (os_exec (world s) argv) as [[msg|rc out err] w]; simpl.
  - unfold setitem2. by rewrite Hd.
  - unfold bytes_decode.
    destruct (decode out) as [m1|output]; simpl.
    { unfold setitem2. by rewrite Hd. }
    destruct (decode err) as [m2|errors]; simpl.
    { unfold setitem2. by rewrite Hd. }
    unfold setitem2. by rewrite Hd.
Qed.

Lemma run_tools_spec section tools : forall results d s,
  results !! section = Some (VDict d) ->
  run_tools section tools results s
  = (Ok (<[section := VDict (entries_after tools (world s) d)]> results),
     launched s (world_after tools (world s)) (tools.*2)).
Proof.
  unfold run_tools.
  induction tools as [|[tool argv] tools IH]; intros results d s Hd; simpl.
  - rewrite launched_nil. by rewrite insert_id.
  - erewrite bind_Ok by (by apply run_tool_spec).
    erewrite IH by apply lookup_insert_eq.
    rewrite insert_insert_eq, launched_launched. reflexivity.
Qed.

Lemma optional_tool_loop (b : bool) section tool argv results s :
  (if b then run_tool section tool argv results else ret results) s
  = run_tools section (if b then [(tool, argv)] else []) results s.
Proof.
  destruct b; [|reflexivity].
  unfold run_tools. simpl. by rewrite bind_ret_r.
Qed.

Lemma run_tools_app section l1 l2 results s :
  run_tools section (l1 ++ l2) results s
  = bind (run_tools section l1 results) (run_tools section l2) s.
Proof. apply for_each_app. Qed.

(** With the file present, [run_code_quality_check] is the loop over the
    enabled tools. *)
Lemma run_code_quality_check_loop file_path s :
  os_path_exists (world s) file_path = true ->
  run_code_quality_check file_path s
  = run_tools "checks" (quality_tools (globals s) file_path)
      (<["file" := VStr file_path]> (<["checks" := VDict ∅]> ∅)) s.
Proof.
  intros Hex. unfold run_code_quality_check.
  rewrite (bind_Ok _ _ s (globals s) s) by reflexivity.
  rewrite (bind_Ok _ _ s true s) by (unfold path_exists; by rewrite Hex).
  cbn [negb]. unfold quality_tools.
  rewrite run_tools_app. apply bind_ext; [apply optional_tool_loop|].
  intros r1 s1. rewrite run_tools_app.
  apply bind_ext; [apply optional_tool_loop|].
  intros r2 s2. rewrite bind_ret_r. apply optional_tool_loop.
Qed.

Lemma format_code_loop file_path s :
  os_path_exists (world s) file_path = true ->
  format_code file_path s
  = run_tools "formatters" (format_tools (globals s) file_path)
      (<["file" := VStr file_path]> (<["formatters" := VDict ∅]> ∅)) s.
Proof.
  intros Hex. unfold format_code.
  rewrite (bind_Ok _ _ s (globals s) s) by reflexivity.
  rewrite (bind_Ok _ _ s true s) by (unfold path_exists; by rewrite Hex).
  cbn [negb]. unfold format_tools.
  rewrite run_tools_app. apply bind_ext; [apply optional_tool_loop|].
  intros r1 s1. rewrite bind_ret_r. apply optional_tool_loop.
Qed.

Lemma run_code_quality_check_missing file_path s :
  os_path_exists (world s) file_path = false ->
  run_code_quality_check file_path s
  = (Ok (<["error" := VStr "File not found"]>
          (<["file" := VStr file_path]> (<["checks" := VDict ∅]> ∅))), s).
Proof.
  intros Hex. unfold run_code_quality_check.
  rewrite (bind_Ok _ _ s (globals s) s) by reflexivity.
  rewrite (bind_Ok _ _ s false s) by (unfold path_exists; by rewrite Hex).
  reflexivity.
Qed.

Lemma format_code_missing file_path s :
  os_path_exists (world s) file_path = false ->
  format_code file_path s
  = (Ok (<["error" := VStr "File not found"]>
          (<["file" := VStr file_path]> (<["formatters" := VDict ∅]> ∅))),
     s).
Proof.
  intros Hex. unfold format_code.
  rewrite (bind_Ok _ _ s (globals s) s) by reflexivity.
  rewrite (bind_Ok _ _ s false s) by (unfold path_exists; by rewrite Hex).
  reflexivity.
Qed.

(** With the file present, the result of a dispatch call in closed
    form. *)
Lemma run_code_quality_check_present file_path s :
  os_path_exists (world s) file_path = true ->
  let tools := quality_tools (globals s) file_path in
  run_code_quality_check file_path s
  = (Ok (<["checks" := VDict (entries_after tools (world s) ∅)]>
          (<["file" := VStr file_path]> (<["checks" := VDict ∅]> ∅))),
     launched s (world_after tools (world s)) (tools.*2)).
Proof.
  intros Hex tools. rewrite run_code_quality_check_loop by done.
  by apply run_tools_spec.
Qed.

Lemma format_code_present file_path s :
  os_path_exists (world s) file_path = true ->
  let tools := format_tools (globals s) file_path in
  format_code file_path s
  = (Ok (<["formatters" := VDict (entries_after tools (world s) ∅)]>
          (<["file" := VStr file_path]> (<["formatters" := VDict ∅]> ∅))),
     launched s (world_after tools (world s)) (tools.*2)).
Proof.
  intros Hex tools. rewrite format_code_loop by done.
  by apply run_tools_spec.
Qed.

(** *** What a sequence of tool blocks leaves in the dictionary *)

Lemma entries_after_notin tools : forall w d (k : string),
  k ∉ tools.*1 -> entries_after tools w d !! k = d !! k.
Proof.
  induction tools as [|[tool argv] tools IH]; intros w d k Hk; simpl.
  - reflexivity.
  - simpl in Hk. apply not_elem_of_cons in Hk as [Hne Hk].
    rewrite IH by done. by rewrite lookup_insert_ne.
Qed.

Lemma entries_after_split pre tool argv post : forall w d,
  tool ∉ post.*1 ->
  entries_after (pre ++ (tool, argv) :: post) w d !! tool
  = Some (tool_entry (os_exec (world_after pre w) argv).1).
Proof.
  induction pre as [|[t a] pre IH]; intros w d Hpost; simpl.
  - rewrite entries_after_notin by done. apply lookup_insert_eq.
  - by apply IH.
Qed.

Lemma entries_after_dom tools : forall w d,
  dom (entries_after tools w d) = dom d ∪ list_to_set tools.*1.
Proof.
  induction tools as [|[tool argv] tools IH]; intros w d; simpl.
  - set_solver.
  - rewrite IH, dom_insert_L. set_solver.
Qed.

Lemma quality_tools_NoDup g file_path : NoDup (quality_tools g file_path).*1.
Proof.
  unfold quality_tools.
  destruct (HAS_PYLINT g), (HAS_FLAKE8 g), (HAS_BANDIT g); simpl;
    repeat (apply NoDup_cons; split; [set_solver|]); apply NoDup_nil_2.
Qed.

Lemma format_tools_NoDup g file_path : NoDup (format_tools g file_path).*1.
Proof.
  unfold format_tools.
  destruct (HAS_BLACK g), (HAS_ISORT g); simpl;
    repeat (apply NoDup_cons; split; [set_solver|]); apply NoDup_nil_2.
Qed.

Lemma quality_tools_elem g file_path (k : string) :
  k ∈ (quality_tools g file_path).*1 <->
  (k = "pylint" /\ HAS_PYLINT g = true) \/
  (k = "flake8" /\ HAS_FLAKE8 g = true) \/
  (k = "bandit" /\ HAS_BANDIT g = true).
Proof.
  unfold quality_tools.
  destruct (HAS_PYLINT g), (HAS_FLAKE8 g), (HAS_BANDIT g); simpl;
    set_solver.
Qed.

Lemma format_tools_elem g file_path (k : string) :
  k ∈ (format_tools g file_path).*1 <->
  (k = "black" /\ HAS_BLACK g = true) \/
  (k = "isort" /\ HAS_ISORT g = true).
Proof.
  unfold format_tools.
  destruct (HAS_BLACK g), (HAS_ISORT g); simpl; set_solver.
Qed.

Lemma NoDup_split_notin {A} (pre post : list (string * A)) (t : string)
  (a : A) :
  NoDup (pre ++ (t, a) :: post).*1 -> t ∉ post.*1.
Proof.
  rewrite fmap_app, fmap_cons. simpl. intros H.
  apply NoDup_app in H as (_ & _ & H). by apply NoDup_cons in H as [H _].
Qed.

Lemma results_section_overwrite (section : string) (f v v' : Value) :
  section <> "file" ->
  <[section := v']>
    (<["file" := f]> (<[section := v]> (∅ : gmap string Value)))
  = <["file" := f]> (<[section := v']> ∅).
Proof.
  intros Hne. rewrite insert_insert_ne by done.
  by rewrite insert_insert_eq.
Qed.

(** C2 (amended): for a path that does not exist, whatever the flags,
    [run_code_quality_check] returns the dictionary with the three keys
    "file", "checks" (an empty dictionary) and "error", and launches no
    child process: the state, with its list of launches, is the one it
    started from. *)
Theorem quality_check_missing_file (file_path : string) (s : State) :
  os_path_exists (world s) file_path = false ->
  exists (r : gmap string Value) (s' : State),
    run_code_quality_check file_path s = (Ok r, s') /\
    r = <["file" := VStr file_path]>
          (<["checks" := VDict ∅]>
             (<["error" := VStr "File not found"]> ∅)) /\
    dom r = {["file"; "checks"; "error"]} /\
    exec_calls s' = exec_calls s /\
    s' = s.
Proof.
  intros Hex. eexists _, s.
  split; [by apply run_code_quality_check_missing|].
  split; [|split; [|done]].
  - apply map_eq. intros k.
    destruct (decide (k = "file")) as [->|?]; [by simplify_map_eq|].
    destruct (decide (k = "checks")) as [->|?]; [by simplify_map_eq|].
    destruct (decide (k = "error")) as [->|?]; by simplify_map_eq.
  - rewrite !dom_insert_L, dom_empty_L. set_solver.
Qed.

(** C10: both dispatch calls always return; the result holds the input
    path under "file" and a dictionary under "checks" (respectively
    "formatters"); for a path that does not exist that dictionary is
    empty and "error" holds "File not found". *)
Theorem dispatch_result_shape (file_path : string) (s : State) :
  (exists (r : gmap string Value) (s' : State) (d : gmap string Value),
     run_code_quality_check file_path s = (Ok r, s') /\
     r !! "file" = Some (VStr file_path) /\
     r !! "checks" = Some (VDict d) /\
     (os_path_exists (world s) file_path = false ->
      d = ∅ /\ r !! "error" = Some (VStr "File not found"))) /\
  (exists (r : gmap string Value) (s' : State) (d : gmap string Value),
     format_code file_path s = (Ok r, s') /\
     r !! "file" = Some (VStr file_path) /\
     r !! "formatters" = Some (VDict d) /\
     (os_path_exists (world s) file_path = false ->
      d = ∅ /\ r !! "error" = Some (VStr "File not found"))).
Proof.
  destruct (os_path_exists (world s) file_path) eqn:Hex; split.
  - eexists _, _, _. rewrite run_code_quality_check_present by done.
    split; [reflexivity|]. by simplify_map_eq.
  - eexists _, _, _. rewrite format_code_present by done.
    split; [reflexivity|]. by simplify_map_eq.
  - eexists _, _, _. rewrite run_code_quality_check_missing by done.
    split; [reflexivity|]. by simplify_map_eq.
  - eexists _, _, _. rewrite format_code_missing by done.
    split; [reflexivity|]. by simplify_map_eq.
Qed.

(** C5: in the result of [run_code_quality_check] the "checks"
    dictionary has no key for a tool whose flag is false ("pylint",
    "flake8", "bandit"), and in the result of [format_code] the
    "formatters" dictionary has none for "black" or "isort" when their
    flag is false; every key that is present names a tool whose flag is
    true, so a tool that is not available is not listed at all. *)
Theorem absent_tools_have_no_key (file_path : string) (s : State) :
  (exists (r : gmap string Value) (s' : State) (d : gmap string Value),
     run_code_quality_check file_path s = (Ok r, s') /\
     r !! "checks" = Some (VDict d) /\
     (HAS_PYLINT (globals s) = false -> d !! "pylint" = None) /\
     (HAS_FLAKE8 (globals s) = false -> d !! "flake8" = None) /\
     (HAS_BANDIT (globals s) = false -> d !! "bandit" = None) /\
     (forall k : string, is_Some (d !! k) ->
        (k = "pylint" /\ HAS_PYLINT (globals s) = true) \/
        (k = "flake8" /\ HAS_FLAKE8 (globals s) = true) \/
        (k = "bandit" /\ HAS_BANDIT (globals s) = true))) /\
  (exists (r : gmap string Value) (s' : State) (d : gmap string Value),
     format_code file_path s = (Ok r, s') /\
     r !! "formatters" = Some (VDict d) /\
     (HAS_BLACK (globals s) = false -> d !! "black" = None) /\
     (HAS_ISORT (globals s) = false -> d !! "isort" = None) /\
     (forall k : string, is_Some (d !! k) ->
        (k = "black" /\ HAS_BLACK (globals s) = true) \/
        (k = "isort" /\ HAS_ISORT (globals s) = true))).
Proof.
  assert (Hq : forall k : string,
    is_Some (entries_after (quality_tools (globals s) file_path) (world s) ∅
             !! k) ->
    k ∈ (quality_tools (globals s) file_path).*1).
  { intros k Hk. apply elem_of_dom in Hk.
    rewrite entries_after_dom in Hk. set_solver. }
  assert (Hf : forall k : string,
    is_Some (entries_after (format_tools (globals s) file_path) (world s) ∅
             !! k) ->
    k ∈ (format_tools (globals s) file_path).*1).
  { intros k Hk. apply elem_of_dom in Hk.
    rewrite entries_after_dom in Hk. set_solver. }
  destruct (os_path_exists (world s) file_path) eqn:Hex; split.
  - eexists _, _, _. rewrite run_code_quality_check_present by done.
    split; [reflexivity|]. split; [by simplify_map_eq|].
    repeat split.
    + intros Hflag. apply eq_None_not_Some. intros Hk. apply Hq in Hk.
      apply quality_tools_elem in Hk. intuition congruence.
    + intros Hflag. apply eq_None_not_Some. intros Hk. apply Hq in Hk.
      apply quality_tools_elem in Hk. intuition congruence.
    + intros Hflag. apply eq_None_not_Some. intros Hk. apply Hq in Hk.
      apply quality_tools_elem in Hk. intuition congruence.
    + intros k Hk. apply Hq in Hk. by apply quality_tools_elem in Hk.
  - eexists _, _, _. rewrite format_code_present by done.
    split; [reflexivity|]. split; [by simplify_map_eq|].
    repeat split.
    + intros Hflag. apply eq_None_not_Some. intros Hk. apply Hf in Hk.
      apply format_tools_elem in Hk. intuition congruence.
    + intros Hflag. apply eq_None_not_Some. intros Hk. apply Hf in Hk.
      apply format_tools_elem in Hk. intuition congruence.
    + intros k Hk. apply Hf in Hk. by apply format_tools_elem in Hk.
  - eexists _, _, _. rewrite run_code_quality_check_missing by done.
    split; [reflexivity|]. split; [by simplify_map_eq|].
    repeat split; try done.
    intros k [x Hx]. by rewrite lookup_empty in Hx.
  - eexists _, _, _. rewrite format_code_missing by done.
    split; [reflexivity|]. split; [by simplify_map_eq|].
    repeat split; try done.
    intros k [x Hx]. by rewrite lookup_empty in Hx.
Qed.

(** C8: with the file present, a dispatch call returns normally whatever
    the tools do; every enabled tool is launched, in order, whatever
    happened to the ones before it; the result has one entry per
    enabled tool, keyed by its name; the entry of a tool is decided by
    the outcome of its own launch alone, and when that launch raises,
    the entry is the inline error [{"error": <exception text>}]. *)
Theorem tool_failures_are_isolated (file_path : string) (s : State) :
  os_path_exists (world s) file_path = true ->
  (let tools := quality_tools (globals s) file_path in
   exists (d : gmap string Value) (s' : State),
     run_code_quality_check file_path s
     = (Ok (<["file" := VStr file_path]> (<["checks" := VDict d]> ∅)), s') /\
     exec_calls s' = exec_calls s ++ tools.*2 /\
     dom d = list_to_set tools.*1 /\
     forall pre tool argv post,
       tools = pre ++ (tool, argv) :: post ->
       let outcome := (os_exec (world_after pre (world s)) argv).1 in
       d !! tool = Some (tool_entry outcome) /\
       forall msg : string,
         outcome = ExecRaise msg ->
         d !! tool = Some (VDict (<["error" := VStr msg]> ∅))) /\
  (let tools := format_tools (globals s) file_path in
   exists (d : gmap string Value) (s' : State),
     format_code file_path s
     = (Ok (<["file" := VStr file_path]> (<["formatters" := VDict d]> ∅)), s')
     /\
     exec_calls s' = exec_calls s ++ tools.*2 /\
     dom d = list_to_set tools.*1 /\
     forall pre tool argv post,
       tools = pre ++ (tool, argv) :: post ->
       let outcome := (os_exec (world_after pre (world s)) argv).1 in
       d !! tool = Some (tool_entry outcome) /\
       forall msg : string,
         outcome = ExecRaise msg ->
         d !! tool = Some (VDict (<["error" := VStr msg]> ∅))).
Proof.
  intros Hex. split; intros tools.
  - eexists _, _. rewrite run_code_quality_check_present by done.
    rewrite results_section_overwrite by done.
    split; [reflexivity|]. split; [reflexivity|]. fold tools. split.
    + rewrite entries_after_dom, dom_empty_L. set_solver.
    + intros pre tool argv post Htools outcome.
      assert (Hentry : entries_after tools (world s) ∅ !! tool
                       = Some (tool_entry outcome)).
      { rewrite Htools. apply entries_after_split.
        apply (NoDup_split_notin pre post tool argv).
        rewrite <- Htools. apply quality_tools_NoDup. }
      split; [exact Hentry|].
      intros msg Hmsg. by rewrite Hentry, Hmsg.
  - eexists _, _. rewrite format_code_present by done.
    rewrite results_section_overwrite by done.
    split; [reflexivity|]. split; [reflexivity|]. fold tools. split.
    + rewrite entries_after_dom, dom_empty_L. set_solver.
    + intros pre tool argv post Htools outcome.
      assert (Hentry : entries_after tools (world s) ∅ !! tool
                       = Some (tool_entry outcome)).
      { rewrite Htools. apply entries_after_split.
        apply (NoDup_split_notin pre post tool argv).
        rewrite <- Htools. apply format_tools_NoDup. }
      split; [exact Hentry|].
      intros msg Hmsg. by rewrite Hentry, Hmsg.
Qed.

(** ** Installation of packages *)

Lemma install_package_found package results s v :
  os_version (world s) package = Some v ->
  install_package package results s
  = (Ok (<[package := "already_installed"]> results), s).
Proof.
  intros Hv.
  unfold install_package, try_except, bind,
    try_except_PackageNotFoundError, version.
  by rewrite Hv.
Qed.

Lemma install_package_launch package results s :
  os_version (world s) package = None ->
  install_package package results s
  = (Ok (<[package :=
            install_outcome (os_exec (world s) (pip_install package)).1]>
           results),
     launched s (os_exec (world s) (pip_install package)).2
       [pip_install package]).
Proof.
  intros Hv.
  unfold install_package, try_except, bind,
    try_except_PackageNotFoundError, version, create_subprocess_exec,
    install_outcome, launched, pip_install.
  rewrite Hv. simpl.
  destruct (os_exec (world s) _) as [[msg|rc out err] w]; simpl.
  - reflexivity.
  - destruct (rc =? 0)%Z; [reflexivity|].
    unfold bytes_decode. by destruct (decode err).
Qed.

(** One iteration always ends normally and assigns the outcome of its
    own package, nothing else. *)
Lemma install_package_total package results s :
  exists (v : string) (s' : State),
    install_package package results s = (Ok (<[package := v]> results), s').
Proof.
  destruct (os_version (world s) package) as [v|] eqn:Hv.
  - eexists _, _. by eapply install_package_found.
  - eexists _, _. by apply install_package_launch.
Qed.

Lemma install_loop_total packages : forall results s,
  exists (r : gmap string string) (s' : State),
    for_each packages install_package results s = (Ok r, s') /\
    dom r = dom results ∪ list_to_set packages /\
    forall q : string, q ∉ packages -> r !! q = results !! q.
Proof.
  induction packages as [|p packages IH]; intros results s; simpl.
  - exists results, s. split; [done|]. split; [set_solver|done].
  - destruct (install_package_total p results s) as (v & s1 & Hp).
    destruct (IH (<[p := v]> results) s1) as (r & s' & Hl & Hdom & Hq).
    exists r, s'. split; [by rewrite (bind_Ok _ _ _ _ _ Hp)|].
    split.
    + rewrite Hdom, dom_insert_L. set_solver.
    + intros q Hnotin. apply not_elem_of_cons in Hnotin as [Hne Hnotin].
      rewrite Hq by done. by rewrite lookup_insert_ne.
Qed.


(** C7: [install_missing_packages] always returns, with an outcome for
    every requested name, and the empty mapping for the empty list.
    Wherever a name stands in the list, its iteration ends normally
    and changes the outcome of that name only; if the package is not
    installed and the launch of the installer raises, the outcome is
    "error: " followed by the exception text; and whatever the outcome
    was, the names after it are processed, from the state the iteration
    left, to give the returned mapping. *)
Theorem install_never_short_circuits (packages : list string) (s : State) :
  exists (r : gmap string string) (s' : State),
    install_missing_packages packages s = (Ok r, s') /\
    dom r = list_to_set packages /\
    install_missing_packages [] s = (Ok ∅, s) /\
    forall (pre post : list string) (p : string),
      packages = pre ++ p :: post ->
      exists (r1 r2 : gmap string string) (s1 s2 : State),
        install_missing_packages pre s = (Ok r1, s1) /\
        install_package p r1 s1 = (Ok r2, s2) /\
        is_Some (r2 !! p) /\
        (forall q : string, q <> p -> r2 !! q = r1 !! q) /\
        (os_version (world s1) p = None ->
         forall msg : string,
           (os_exec (world s1) [sys_executable; "-m"; "pip"; "install"; p]).1
           = ExecRaise msg ->
           r2 !! p = Some ("error: " +:+ msg)) /\
        for_each post install_package r2 s2 = (Ok r, s').
Proof.
  unfold install_missing_packages.
  destruct (install_loop_total packages ∅ s) as (r & s' & Hrun & Hdom & _).
  exists r, s'. split; [exact Hrun|]. split.
  { rewrite Hdom, dom_empty_L. set_solver. }
  split; [reflexivity|].
  intros pre post p ->.
  destruct (install_loop_total pre ∅ s) as (r1 & s1 & Hpre & _ & _).
  destruct (install_package_total p r1 s1) as (v & s2 & Hp).
  exists r1, (<[p := v]> r1), s1, s2.
  split; [exact Hpre|]. split; [exact Hp|].
  split; [rewrite lookup_insert_eq; by eexists|].
  split; [intros q Hq; by rewrite lookup_insert_ne|].
  split.
  - intros Hv msg Hmsg. rewrite (install_package_launch _ _ _ Hv) in Hp.
    injection Hp as Hr _. rewrite <- Hr, lookup_insert_eq.
    unfold pip_install. by rewrite Hmsg.
  - rewrite for_each_app, (bind_Ok _ _ _ _ _ Hpre) in Hrun. simpl in Hrun.
    by rewrite (bind_Ok _ _ _ _ _ Hp) in Hrun.
Qed.

(** ** System information *)











(** * Further properties of the code *)

(** ** Installation *)

Lemma install_loop_launches packages : forall results s,
  exists (r : gmap string string) (s' : State) (names : list string),
    for_each packages install_package results s = (Ok r, s') /\
    exec_calls s' = exec_calls s ++ (pip_install <$> names) /\
    sublist names packages.
Proof.
  induction packages as [|p packages IH]; intros results s; simpl.
  - exists results, s, []. simpl. by rewrite app_nil_r.
  - destruct (os_version (world s) p) as [v|] eqn:Hv.
    + destruct (IH (<[p := "already_installed"]> results) s)
        as (r & s' & names & Hrun & Hcalls & Hsub).
      exists r, s', names.
      rewrite (bind_Ok _ _ _ _ _ (install_package_found _ _ _ _ Hv)).
      split; [done|]. split; [done|]. by apply sublist_cons.
    + destruct (IH (<[p := install_outcome
                           (os_exec (world s) (pip_install p)).1]> results)
                  (launched s (os_exec (world s) (pip_install p)).2
                     [pip_install p]))
        as (r & s' & names & Hrun & Hcalls & Hsub).
      exists r, s', (p :: names).
      rewrite (bind_Ok _ _ _ _ _ (install_package_launch _ _ _ Hv)).
      split; [done|]. split.
      * rewrite Hcalls. simpl. by rewrite <- app_assoc.
      * by apply sublist_skip.
Qed.

(** X1: the child processes that [install_missing_packages] launches
    are runs of [sys.executable -m pip install <name>], one for each
    name of a sublist of the requested names, in the order of the
    request; it launches nothing else. *)
Theorem install_launches_only_pip (packages : list string) (s : State) :
  exists (r : gmap string string) (s' : State) (names : list string),
    install_missing_packages packages s = (Ok r, s') /\
    exec_calls s'
    = exec_calls s
      ++ ((fun name => [sys_executable; "-m"; "pip"; "install"; name])
            <$> names) /\
    sublist names packages /\
    (length names <= length packages)%nat.
Proof.
  destruct (install_loop_launches packages ∅ s)
    as (r & s' & names & Hrun & Hcalls & Hsub).
  exists r, s', names. repeat split; try done.
  by apply sublist_length.
Qed.

Lemma install_loop_resolvable packages : forall results s,
  (forall p : string, p ∈ packages -> is_Some (os_version (world s) p)) ->
  exists r : gmap string string,
    for_each packages install_package results s = (Ok r, s) /\
    (forall p : string, p ∈ packages -> r !! p = Some "already_installed") /\
    (forall q : string, q ∉ packages -> r !! q = results !! q).
Proof.
  induction packages as [|p packages IH]; intros results s Hall; simpl.
  - exists results. split; [done|]. split; [|done].
    intros p Hp. by apply elem_of_nil in Hp.
  - destruct (Hall p) as [v Hv]; [by left|].
    destruct (IH (<[p := "already_installed"]> results) s)
      as (r & Hrun & Hin & Hout).
    { intros q Hq. apply Hall. by right. }
    exists r.
    rewrite (bind_Ok _ _ _ _ _ (install_package_found _ _ _ _ Hv)).
    split; [done|]. split.
    + intros q Hq. destruct (decide (q ∈ packages)) as [Hq'|Hq'].
      * by apply Hin.
      * rewrite Hout by done.
        apply elem_of_cons in Hq as [->|Hq]; [|done].
        by rewrite lookup_insert_eq.
    + intros q Hq. apply not_elem_of_cons in Hq as [Hne Hq].
      rewrite Hout by done. by rewrite lookup_insert_ne.
Qed.

(** X2: when every requested name already resolves to an installed
    version, [install_missing_packages] launches nothing and leaves the
    state as it was, and its result maps exactly the requested names,
    each to "already_installed". *)
Theorem install_all_resolvable (packages : list string) (s : State) :
  (forall p : string, p ∈ packages -> is_Some (os_version (world s) p)) ->
  exists r : gmap string string,
    install_missing_packages packages s = (Ok r, s) /\
    dom r = list_to_set packages /\
    forall p : string, p ∈ packages -> r !! p = Some "already_installed".
Proof.
  intros Hall.
  destruct (install_loop_resolvable packages ∅ s Hall)
    as (r & Hrun & Hin & Hout).
  exists r. split; [exact Hrun|]. split; [|exact Hin].
  apply set_eq. intros k. rewrite elem_of_dom, elem_of_list_to_set.
  split.
  - intros [v Hv]. destruct (decide (k ∈ packages)) as [|Hk]; [done|].
    rewrite Hout in Hv by done. by rewrite lookup_empty in Hv.
  - intros Hk. rewrite Hin by done. by eexists.
Qed.

Lemma install_outcome_form (o : ExecOutcome) :
  outcome_form (install_outcome o).
Proof.
  unfold outcome_form, install_outcome.
  destruct o as [msg|rc out err].
  - right. right. right. by eexists.
  - destruct (rc =? 0)%Z; [by right; left|].
    destruct (decode err) as [msg|text].
    + right. right. right. by eexists.
    + right. right. left. by eexists.
Qed.

Lemma install_loop_forms packages : forall results s r s',
  map_Forall (fun _ v => outcome_form v) results ->
  for_each packages install_package results s = (Ok r, s') ->
  map_Forall (fun _ v => outcome_form v) r.
Proof.
  induction packages as [|p packages IH]; intros results s r s' Hres; simpl.
  - by intros [= <- _].
  - destruct (os_version (world s) p) as [v|] eqn:Hv.
    + rewrite (bind_Ok _ _ _ _ _ (install_package_found _ _ _ _ Hv)).
      apply IH. apply map_Forall_insert_2; [|done]. by left.
    + rewrite (bind_Ok _ _ _ _ _ (install_package_launch _ _ _ Hv)).
      apply IH. apply map_Forall_insert_2; [|done].
      apply install_outcome_form.
Qed.

(** X3: every outcome in the result of [install_missing_packages] is
    "already_installed", "installed", "failed: " followed by a text, or
    "error: " followed by a text. *)
Theorem install_outcomes_have_four_forms (packages : list string)
  (s : State) :
  exists (r : gmap string string) (s' : State),
    install_missing_packages packages s = (Ok r, s') /\
    forall k v : string,
      r !! k = Some v ->
      v = "already_installed" \/ v = "installed" \/
      (exists text : string, v = "failed: " +:+ text) \/
      (exists text : string, v = "error: " +:+ text).
Proof.
  destruct (install_loop_total packages ∅ s) as (r & s' & Hrun & _ & _).
  exists r, s'. split; [exact Hrun|].
  intros k v Hk.
  assert (Hforms : map_Forall (fun _ v => outcome_form v) r).
  { apply (install_loop_forms packages ∅ s r s'); [|exact Hrun].
    apply map_Forall_empty. }
  exact (Hforms k v Hk).
Qed.

(** X4: for a single package that is not installed and whose installer
    runs to completion: with exit code zero the outcome is "installed"
    without the standard error being decoded; with a nonzero exit code
    and a standard error that cannot be decoded, the outcome is
    "error: " followed by the text of the decoding error, not
    "failed: ...". *)
Theorem install_undecodable_stderr (p : string) (s : State) (rc : Z)
  (out err : list Byte.byte) (msg : string) :
  os_version (world s) p = None ->
  (os_exec (world s) [sys_executable; "-m"; "pip"; "install"; p]).1
  = ExecDone rc out err ->
  decode err = inl msg ->
  (install_missing_packages [p] s).1
  = Ok (<[p := if (rc =? 0)%Z then "installed" else "error: " +:+ msg]> ∅).
Proof.
  intros Hv Hexec Hdec. unfold install_missing_packages. simpl.
  rewrite (bind_Ok _ _ _ _ _ (install_package_launch _ _ _ Hv)).
  simpl. unfold pip_install, install_outcome. rewrite Hexec.
  destruct (rc =? 0)%Z; [done|]. by rewrite Hdec.
Qed.

(** ** Dispatch *)

(** X5: for a path that does not exist, whatever the flags,
    [format_code] returns the dictionary with the three keys "file",
    "formatters" (an empty dictionary) and "error", and launches no
    child process. *)
Theorem format_code_missing_file (file_path : string) (s : State) :
  os_path_exists (world s) file_path = false ->
  exists (r : gmap string Value) (s' : State),
    format_code file_path s = (Ok r, s') /\
    r = <["file" := VStr file_path]>
          (<["formatters" := VDict ∅]>
             (<["error" := VStr "File not found"]> ∅)) /\
    dom r = {["file"; "formatters"; "error"]} /\
    exec_calls s' = exec_calls s /\
    s' = s.
Proof.
  intros Hex. eexists _, s.
  split; [by apply format_code_missing|].
  split; [|split; [|done]].
  - apply map_eq. intros k.
    destruct (decide (k = "file")) as [->|?]; [by simplify_map_eq|].
    destruct (decide (k = "formatters")) as [->|?]; [by simplify_map_eq|].
    destruct (decide (k = "error")) as [->|?]; by simplify_map_eq.
  - rewrite !dom_insert_L, dom_empty_L. set_solver.
Qed.

(** X6: in the result of either dispatch call the key "error" is present
    exactly when the file does not exist; the keys of the result are
    "file" and "checks" (respectively "formatters") when the file
    exists, and these two with "error" when it does not. *)
Theorem error_key_iff_missing_file (file_path : string) (s : State) :
  (exists (r : gmap string Value) (s' : State),
     run_code_quality_check file_path s = (Ok r, s') /\
     (is_Some (r !! "error") <-> os_path_exists (world s) file_path = false)
     /\
     dom r = if os_path_exists (world s) file_path
             then {["file"; "checks"]}
             else {["file"; "checks"; "error"]}) /\
  (exists (r : gmap string Value) (s' : State),
     format_code file_path s = (Ok r, s') /\
     (is_Some (r !! "error") <-> os_path_exists (world s) file_path = false)
     /\
     dom r = if os_path_exists (world s) file_path
             then {["file"; "formatters"]}
             else {["file"; "formatters"; "error"]}).
Proof.
  destruct (os_path_exists (world s) file_path) eqn:Hex; split.
  - eexists _, _. rewrite run_code_quality_check_present by done.
    rewrite results_section_overwrite by done.
    split; [reflexivity|]. split.
    + rewrite !lookup_insert_ne, lookup_empty by discriminate.
      split; [by intros [? ?]|done].
    + rewrite !dom_insert_L, dom_empty_L. set_solver.
  - eexists _, _. rewrite format_code_present by done.
    rewrite results_section_overwrite by done.
    split; [reflexivity|]. split.
    + rewrite !lookup_insert_ne, lookup_empty by discriminate.
      split; [by intros [? ?]|done].
    + rewrite !dom_insert_L, dom_empty_L. set_solver.
  - eexists _, _. rewrite run_code_quality_check_missing by done.
    split; [reflexivity|]. split.
    + rewrite lookup_insert_eq. split; [done|by eexists].
    + rewrite !dom_insert_L, dom_empty_L. set_solver.
  - eexists _, _. rewrite format_code_missing by done.
    split; [reflexivity|]. split.
    + rewrite lookup_insert_eq. split; [done|by eexists].
    + rewrite !dom_insert_L, dom_empty_L. set_solver.
Qed.

Lemma quality_tools_commands g file_path :
  sublist (quality_tools g file_path).*2
    [["pylint"; file_path]; ["flake8"; file_path];
     ["bandit"; "-f"; "json"; file_path]].
Proof.
  unfold quality_tools.
  destruct (HAS_PYLINT g), (HAS_FLAKE8 g), (HAS_BANDIT g); simpl;
    repeat first [apply sublist_nil | apply sublist_skip | apply sublist_cons].
Qed.

Lemma format_tools_commands g file_path :
  sublist (format_tools g file_path).*2
    [["black"; "--check"; "--diff"; file_path];
     ["isort"; "--check-only"; "--diff"; file_path]].
Proof.
  unfold format_tools.
  destruct (HAS_BLACK g), (HAS_ISORT g); simpl;
    repeat first [apply sublist_nil | apply sublist_skip | apply sublist_cons].
Qed.

(** X7: the child processes that [run_code_quality_check] launches are,
    in this order and each at most once, [pylint <file>],
    [flake8 <file>] and [bandit -f json <file>]; those of [format_code]
    are [black --check --diff <file>] and
    [isort --check-only --diff <file>].  Neither call launches any other
    command; in particular [format_code] runs the formatters in their
    checking mode only. *)
Theorem dispatch_command_lines (file_path : string) (s : State) :
  (exists l : list (list string),
     exec_calls (run_code_quality_check file_path s).2 = exec_calls s ++ l /\
     sublist l [["pylint"; file_path]; ["flake8"; file_path];
                ["bandit"; "-f"; "json"; file_path]]) /\
  (exists l : list (list string),
     exec_calls (format_code file_path s).2 = exec_calls s ++ l /\
     sublist l [["black"; "--check"; "--diff"; file_path];
                ["isort"; "--check-only"; "--diff"; file_path]]).
Proof.
  destruct (os_path_exists (world s) file_path) eqn:Hex; split.
  - eexists. rewrite run_code_quality_check_present by done.
    split; [reflexivity|]. apply quality_tools_commands.
  - eexists. rewrite format_code_present by done.
    split; [reflexivity|]. apply format_tools_commands.
  - exists []. rewrite run_code_quality_check_missing by done.
    rewrite app_nil_r. split; [done|]. apply sublist_nil_l.
  - exists []. rewrite format_code_missing by done.
    rewrite app_nil_r. split; [done|]. apply sublist_nil_l.
Qed.

Lemma tool_entry_form (o : ExecOutcome) : entry_form (tool_entry o).
Proof.
  unfold entry_form, tool_entry, tool_error, str_exn.
  destruct o as [msg|rc out err]; [by right; eexists|].
  destruct (decode out) as [m1|output]; [by right; eexists|].
  destruct (decode err) as [m2|errors]; [by right; eexists|].
  left. by eexists _, _, _.
Qed.

Lemma entries_after_forms tools : forall w d,
  map_Forall (fun _ v => entry_form v) d ->
  map_Forall (fun _ v => entry_form v) (entries_after tools w d).
Proof.
  induction tools as [|[tool argv] tools IH]; intros w d Hd; simpl.
  - exact Hd.
  - apply IH. apply map_Forall_insert_2; [|exact Hd]. apply tool_entry_form.
Qed.

(** X8: every entry that a dispatch call records for a tool is either
    the report [{"exit_code": rc, "output": text, "errors": text}] or
    the inline error [{"error": text}]. *)
Theorem tool_entries_have_two_forms (file_path : string) (s : State) :
  (exists (r : gmap string Value) (s' : State) (d : gmap string Value),
     run_code_quality_check file_path s = (Ok r, s') /\
     r !! "checks" = Some (VDict d) /\
     forall (tool : string) (v : Value),
       d !! tool = Some v ->
       (exists (rc : Z) (output errors : string),
          v = VDict (<["exit_code" := VInt rc]>
                    (<["output" := VStr output]>
                    (<["errors" := VStr errors]> ∅)))) \/
       (exists msg : string, v = VDict (<["error" := VStr msg]> ∅))) /\
  (exists (r : gmap string Value) (s' : State) (d : gmap string Value),
     format_code file_path s = (Ok r, s') /\
     r !! "formatters" = Some (VDict d) /\
     forall (tool : string) (v : Value),
       d !! tool = Some v ->
       (exists (rc : Z) (output errors : string),
          v = VDict (<["exit_code" := VInt rc]>
                    (<["output" := VStr output]>
                    (<["errors" := VStr errors]> ∅)))) \/
       (exists msg : string, v = VDict (<["error" := VStr msg]> ∅))).
Proof.
  assert (Hforms : forall tools (tool : string) (v : Value),
    entries_after tools (world s) ∅ !! tool = Some v -> entry_form v).
  { intros tools tool v Hv.
    exact (entries_after_forms tools (world s) ∅ (map_Forall_empty _)
             tool v Hv). }
  destruct (os_path_exists (world s) file_path) eqn:Hex; split.
  - eexists _, _, _. rewrite run_code_quality_check_present by done.
    split; [reflexivity|]. split; [by rewrite lookup_insert_eq|].
    intros tool v Hv. exact (Hforms _ tool v Hv).
  - eexists _, _, _. rewrite format_code_present by done.
    split; [reflexivity|]. split; [by rewrite lookup_insert_eq|].
    intros tool v Hv. exact (Hforms _ tool v Hv).
  - eexists _, _, _. rewrite run_code_quality_check_missing by done.
    split; [reflexivity|].
    split; [by rewrite !lookup_insert_ne, lookup_insert_eq by discriminate|].
    intros tool v Hv. by rewrite lookup_empty in Hv.
  - eexists _, _, _. rewrite format_code_missing by done.
    split; [reflexivity|].
    split; [by rewrite !lookup_insert_ne, lookup_insert_eq by discriminate|].
    intros tool v Hv. by rewrite lookup_empty in Hv.
Qed.

(** X9: when pylint is enabled and runs to completion on an existing
    file but its standard output cannot be decoded, the entry for
    "pylint" is the inline error with the text of the decoding error;
    the exit code of the run is not recorded. *)
Theorem undecodable_tool_output (file_path : string) (s : State) (rc : Z)
  (out err : list Byte.byte) (msg : string) :
  os_path_exists (world s) file_path = true ->
  HAS_PYLINT (globals s) = true ->
  (os_exec (world s) ["pylint"; file_path]).1 = ExecDone rc out err ->
  decode out = inl msg ->
  exists (r : gmap string Value) (s' : State) (d : gmap string Value),
    run_code_quality_check file_path s = (Ok r, s') /\
    r !! "checks" = Some (VDict d) /\
    d !! "pylint" = Some (VDict (<["error" := VStr msg]> ∅)).
Proof.
  intros Hex Hpylint Hexec Hdec.
  eexists _, _, _. rewrite run_code_quality_check_present by done.
  split; [reflexivity|]. split; [by rewrite lookup_insert_eq|].
  pose proof (quality_tools_NoDup (globals s) file_path) as Hnd.
  unfold quality_tools in *. rewrite Hpylint in *.
  cbn [app] in *.
  match goal with
  | |- entries_after (_ :: ?post) _ _ !! _ = _ =>
      pose proof (entries_after_split [] "pylint" ["pylint"; file_path] post
                    (world s) ∅) as Hsplit
  end.
  cbn [app world_after] in Hsplit. rewrite Hsplit.
  - rewrite Hexec. unfold tool_entry. by rewrite Hdec.
  - by apply (NoDup_split_notin [] _ "pylint" ["pylint"; file_path]).
Qed.

(** ** System information *)



Lemma with_section_lookup_eq (k : string) (o : option Value)
  (info : gmap string Value) :
  info !! k = None -> with_section k o info !! k = o.
Proof.
  intros Hk. unfold with_section. destruct o; [|done].
  by rewrite lookup_insert_eq.
Qed.







(** X13: the capability "code_quality" does not cover bandit.  When it
    is false (none of pylint, black, isort, flake8 is present),
    [format_code] on an existing file launches nothing and returns an
    empty "formatters" dictionary in an unchanged state, while
    [run_code_quality_check] still launches bandit, and only bandit, if
    bandit is present. *)
Theorem code_quality_false_dispatch (file_path : string) (s : State) :
  code_quality (detect_capabilities (globals s)) = false ->
  os_path_exists (world s) file_path = true ->
  format_code file_path s
  = (Ok (<["file" := VStr file_path]> (<["formatters" := VDict ∅]> ∅)), s) /\
  exec_calls (run_code_quality_check file_path s).2
  = exec_calls s
    ++ (if HAS_BANDIT (globals s)
        then [["bandit"; "-f"; "json"; file_path]] else []).
Proof.
  intros Hcq Hex. unfold detect_capabilities in Hcq. cbn [code_quality] in Hcq.
  apply orb_false_elim in Hcq as [Hcq Hflake8].
  apply orb_false_elim in Hcq as [Hcq Hisort].
  apply orb_false_elim in Hcq as [Hpylint Hblack].
  split.
  - rewrite format_code_present by done.
    unfold format_tools. rewrite Hblack, Hisort. cbn [app entries_after
      world_after fmap list_fmap].
    rewrite launched_nil. by rewrite results_section_overwrite.
  - rewrite run_code_quality_check_present by done.
    unfold quality_tools. rewrite Hpylint, Hflake8.
    by destruct (HAS_BANDIT (globals s)).
Qed.

(** ** Detection *)

(** X14: detection is monotone: when every dependency present under the
    flags [g1] is present under [g2], every capability enabled under
    [g1] is enabled under [g2]. *)
Theorem detect_capabilities_monotone (g1 g2 : DependencyFlags)
  (c : Capability) :
  flags_le g1 g2 ->
  enabled (detect_capabilities g1) c = true ->
  enabled (detect_capabilities g2) c = true.
Proof.
  unfold flags_le.
  intros (Hpsutil & Hnumpy & Hgputil & Hqr & Hqiskit & Hmpl & Hcv & Htorch
          & Htf & Hpandas & Hsk & Hpoetry & Hpipenv & Hpdt & Hpylint
          & Hblack & Hisort & Hflake8 & Hprof & Hmprof & Hlprof).
  destruct c; unfold detect_capabilities; cbn [enabled gpu_monitoring
    quantum_random quantum_computing image_processing machine_learning
    deep_learning data_analysis visualization profiling code_quality
    package_management];
    rewrite ?andb_true_iff, ?orb_true_iff; tauto.
Qed.

(** ** Formatting of the capabilities *)

Lemma append_if_app (b : bool) (x : string) (l : list string) :
  append_if b x l = l ++ (if b then [x] else []).
Proof. unfold append_if. destruct b; [done|by rewrite app_nil_r]. Qed.

Lemma capability_labels_elem (caps : MCPCapabilities) (k : string) :
  k ∈ capability_labels caps <->
  exists c : Capability, k = category c /\ enabled caps c = true.
Proof.
  unfold capability_labels. cbv zeta. rewrite !append_if_app.
  rewrite !elem_of_app. split.
  - intros [[[[[[[[[[[H|H]|H]|H]|H]|H]|H]|H]|H]|H]|H]|H];
      try (by apply elem_of_nil in H);
      match type of H with
      | _ ∈ (if ?b then _ else _) =>
          destruct b eqn:Hb; [|by apply elem_of_nil in H];
          apply list_elem_of_singleton in H as ->
      end;
      first [ by exists GpuMonitoring | by exists QuantumRandom
            | by exists QuantumComputing | by exists ImageProcessing
            | by exists MachineLearning | by exists DeepLearning
            | by exists DataAnalysis | by exists Visualization
            | by exists Profiling | by exists CodeQuality
            | by exists PackageManagement ].
  - intros [c [-> Hc]].
    destruct c; simpl in Hc; rewrite Hc; cbn [category];
      rewrite list_elem_of_singleton; tauto.
Qed.

Lemma join_head (sep : string) (a : Ascii.ascii) (x : string)
  (l : list string) :
  exists rest : string, join sep (String a x :: l) = String a rest.
Proof. destruct l; simpl; by eexists. Qed.

(** X15: [_format_capabilities] leaves the state as it was and returns
    "Basic functionality only" exactly when no capability is enabled. *)
Theorem format_capabilities_basic (s : State) :
  exists text : string,
    _format_capabilities s = (Ok text, s) /\
    (text = "Basic functionality only" <->
     forall c : Capability, enabled (capabilities (server s)) c = false).
Proof.
  eexists. split; [reflexivity|].
  set (caps := capabilities (server s)).
  pose proof (capability_labels_elem caps) as Helem.
  destruct (capability_labels caps) as [|x l] eqn:Hlabels.
  - split; [|done]. intros _ c.
    destruct (enabled caps c) eqn:Hc; [|done].
    assert (category c ∈ @nil string) as Hin by (apply Helem; eauto).
    by apply elem_of_nil in Hin.
  - assert (x ∈ x :: l) as Hx by left.
    apply Helem in Hx as (c & -> & Hc). split.
    + intros Htext. exfalso.
      destruct c; cbn [category] in Htext;
        match type of Htext with
        | join _ (String ?a ?x :: ?l) = _ =>
            destruct (join_head ", " a x l) as [rest Hrest];
            rewrite Hrest in Htext; discriminate Htext
        end.
    + intros Hall. by rewrite Hall in Hc.
Qed.

Lemma category_inj (c1 c2 : Capability) :
  category c1 = category c2 -> c1 = c2.
Proof. destruct c1, c2; simpl; intros H; first [done | discriminate H]. Qed.

Lemma recommendations_key (s : State) (r : gmap string (list string))
  (k : string) :
  (get_missing_packages_recommendations s).1 = Ok r ->
  is_Some (r !! k) <->
  exists c : Capability,
    k = category c /\ enabled (capabilities (server s)) c = false.
Proof.
  intros [= <-]. set (caps := capabilities (server s)). split.
  - intros [l Hl].
    repeat (apply recommend_lookup_Some in Hl
              as [(Hb & -> & _)|Hl];
            [apply negb_true_iff in Hb;
             first [ by exists GpuMonitoring | by exists QuantumRandom
                   | by exists QuantumComputing | by exists ImageProcessing
                   | by exists MachineLearning | by exists DeepLearning
                   | by exists DataAnalysis | by exists Visualization
                   | by exists Profiling | by exists CodeQuality
                   | by exists PackageManagement ] |]).
    by rewrite lookup_empty in Hl.
  - intros [c [-> Hc]].
    destruct c; simpl in Hc; fold caps; rewrite Hc; cbn [negb category];
      rewrite ?recommend_lookup_ne by done;
      rewrite recommend_lookup_eq; by eexists.
Qed.

(** X16: the labels that [_format_capabilities] lists and the keys of
    [get_missing_packages_recommendations] split the eleven categories:
    a category is listed as a label exactly when its capability is
    enabled, and exactly when it is not a key of the recommendations;
    every label is one of the categories. *)
Theorem labels_and_recommendations_split (s : State) :
  exists (text : string) (r : gmap string (list string)),
    _format_capabilities s = (Ok text, s) /\
    get_missing_packages_recommendations s = (Ok r, s) /\
    let labels := capability_labels (capabilities (server s)) in
    (labels <> [] -> text = join ", " labels) /\
    (forall k : string, k ∈ labels -> exists c : Capability, k = category c)
    /\
    forall c : Capability,
      (category c ∈ labels <-> enabled (capabilities (server s)) c = true) /\
      (category c ∈ labels <-> r !! category c = None).
Proof.
  eexists _, _. split; [reflexivity|]. split; [reflexivity|].
  set (caps := capabilities (server s)). intros labels.
  assert (Hlabel : forall c : Capability,
            category c ∈ labels <-> enabled caps c = true).
  { intros c. unfold labels. rewrite capability_labels_elem. split.
    - intros (c' & Heq & Hc'). by apply category_inj in Heq as ->.
    - intros Hc. by exists c. }
  split; [|split].
  - unfold labels. by destruct (capability_labels caps).
  - intros k Hk. apply capability_labels_elem in Hk as (c & -> & _).
    by exists c.
  - intros c. split; [apply Hlabel|]. rewrite Hlabel.
    pose proof (recommendations_key s _ (category c) eq_refl) as Hkey.
    rewrite eq_None_not_Some. split.
    + intros Hc Hsome. apply Hkey in Hsome as (c' & Heq & Hc').
      apply category_inj in Heq as <-. fold caps in Hc'.
      by rewrite Hc in Hc'.
    + intros Hnot. destruct (enabled caps c) eqn:Hc; [done|].
      exfalso. apply Hnot, Hkey. by exists c.
Qed.

End Properties.

(** * The load of the module *)

Section Loading.
Variable imp : string -> ImportOutcome.

Lemma run_required_Ok targets :
  (forall t : string, t ∈ targets -> imp t = Imported) ->
  run_required imp targets = Ok tt.
Proof.
  induction targets as [|t targets IH]; intros Hall; simpl; [done|].
  rewrite (Hall t) by left. apply IH. intros t' Ht'. apply Hall. by right.
Qed.

Lemma run_required_Raised targets (t : string) :
  t ∈ targets -> imp t <> Imported ->
  exists e : exn, run_required imp targets = Raised e.
Proof.
  induction targets as [|t' targets IH]; intros Hin Hne; simpl.
  - by apply elem_of_nil in Hin.
  - destruct (imp t') as [|msg|msg] eqn:Ht'; [|by eexists..].
    apply elem_of_cons in Hin as [->|Hin]; [done|]. by apply IH.
Qed.

Lemma import_all_no_crash targets :
  (forall (t msg : string), imp t <> ImportCrash msg) ->
  forall msg : string, import_all imp targets <> ImportCrash msg.
Proof.
  intros Hno. induction targets as [|t targets IH]; intros msg; simpl.
  - done.
  - destruct (imp t) as [|m|m] eqn:Ht; [apply IH|done|].
    by destruct (Hno t m).
Qed.

Lemma try_import_no_crash alts :
  (forall (t msg : string), imp t <> ImportCrash msg) ->
  exists v : bool, try_import imp alts = Ok v.
Proof.
  intros Hno. induction alts as [|targets alts IH]; simpl; [by eexists|].
  destruct (import_all imp targets) as [|m|m] eqn:Hall;
    [by eexists|exact IH|].
  by destruct (import_all_no_crash targets Hno m).
Qed.

Lemma run_optional_no_crash blocks : forall d,
  (forall (t msg : string), imp t <> ImportCrash msg) ->
  exists d' : gmap string bool, run_optional imp blocks d = Ok d'.
Proof.
  induction blocks as [|b blocks IH]; intros d Hno; simpl; [by eexists|].
  destruct (try_import_no_crash (alternatives b) Hno) as [v ->].
  by apply IH.
Qed.

Lemma run_optional_dom blocks : forall d d',
  run_optional imp blocks d = Ok d' ->
  dom d' = dom d ∪ list_to_set (flag <$> blocks).
Proof.
  induction blocks as [|b blocks IH]; intros d d'; simpl.
  - intros [= <-]. set_solver.
  - destruct (try_import imp (alternatives b)) as [v|e]; [|done].
    intros Hrun. rewrite (IH _ _ Hrun), dom_insert_L. set_solver.
Qed.

Lemma run_optional_notin blocks : forall d d' (k : string),
  run_optional imp blocks d = Ok d' ->
  k ∉ flag <$> blocks -> d' !! k = d !! k.
Proof.
  induction blocks as [|b blocks IH]; intros d d' k; simpl.
  - by intros [= <-].
  - destruct (try_import imp (alternatives b)) as [v|e]; [|done].
    intros Hrun Hk. apply not_elem_of_cons in Hk as [Hne Hk].
    rewrite (IH _ _ _ Hrun Hk). by rewrite lookup_insert_ne.
Qed.

Lemma run_optional_lookup blocks : forall d d' (b : OptionalImport),
  NoDup (flag <$> blocks) ->
  run_optional imp blocks d = Ok d' ->
  b ∈ blocks ->
  exists v : bool,
    try_import imp (alternatives b) = Ok v /\ d' !! flag b = Some v.
Proof.
  induction blocks as [|b' blocks IH]; intros d d' b Hnd; simpl.
  - intros _ Hin. by apply elem_of_nil in Hin.
  - apply NoDup_cons in Hnd as [Hb' Hnd].
    destruct (try_import imp (alternatives b')) as [v|e] eqn:Hv; [|done].
    intros Hrun Hin. apply elem_of_cons in Hin as [->|Hin].
    + exists v. split; [done|].
      rewrite (run_optional_notin _ _ _ _ Hrun Hb').
      by rewrite lookup_insert_eq.
    + by apply (IH _ _ _ Hnd Hrun).
Qed.

Lemma run_optional_Raised blocks : forall d (b : OptionalImport) (e : exn),
  b ∈ blocks ->
  try_import imp (alternatives b) = Raised e ->
  exists e' : exn, run_optional imp blocks d = Raised e'.
Proof.
  induction blocks as [|b' blocks IH]; intros d b e Hin Hb; simpl.
  - by apply elem_of_nil in Hin.
  - destruct (try_import imp (alternatives b')) as [v|e'] eqn:Hv;
      [|by eexists].
    apply elem_of_cons in Hin as [->|Hin]; [congruence|].
    by apply (IH _ b e).
Qed.

Lemma optional_imports_NoDup : NoDup (flag <$> optional_imports).
Proof. apply (bool_decide_unpack _). vm_compute. reflexivity. Qed.

Lemma load_module_Ok (d : gmap string bool) :
  load_module imp = Ok d ->
  run_optional imp optional_imports ∅ = Ok d.
Proof.
  unfold load_module. by destruct (run_required imp required_imports).
Qed.

Lemma load_module_lookup (d : gmap string bool) (b : OptionalImport) :
  load_module imp = Ok d ->
  b ∈ optional_imports ->
  exists v : bool,
    try_import imp (alternatives b) = Ok v /\ d !! flag b = Some v.
Proof.
  intros Hload%load_module_Ok Hin.
  exact (run_optional_lookup _ _ _ _ optional_imports_NoDup Hload Hin).
Qed.

Lemma Ok_default {A} (r : Res A) (a : A) :
  match r with Ok _ => true | Raised _ => false end = true ->
  r = Ok (match r with Ok x => x | Raised _ => a end).
Proof. by destruct r. Qed.


Ltac elem_search :=
  solve [repeat first [apply list_elem_of_here | apply list_elem_of_further]].

Lemma flags_of_globals_is_Some (d : gmap string bool) :
  (forall k : string, k ∈ flag <$> optional_imports -> is_Some (d !! k)) ->
  is_Some (flags_of_globals d).
Proof.
  intros Hk. unfold flags_of_globals.
  repeat match goal with
         | |- context [d !! ?k] =>
             let H := fresh "H" in
             destruct (Hk k) as [? H];
             [apply (bool_decide_unpack _); vm_compute; reflexivity|];
             rewrite H; cbn [mbind option_bind]
         end.
  by eexists.
Qed.

(** X17: when the imports at the head of the module work and no
    optional import raises anything but [ImportError], the module
    loads: each of its fifty blocks defines its flag, whatever is
    missing, and every flag that the class reads is defined. *)
Theorem load_completes :
  (forall t : string, t ∈ required_imports -> imp t = Imported) ->
  (forall t msg : string, imp t <> ImportCrash msg) ->
  exists (d : gmap string bool) (g : DependencyFlags),
    load_module imp = Ok d /\
    dom d = list_to_set (flag <$> optional_imports) /\
    size d = 50%nat /\
    flags_of_globals d = Some g.
Proof.
  intros Hreq Hno. unfold load_module. rewrite run_required_Ok by done.
  destruct (run_optional_no_crash optional_imports ∅ Hno) as [d Hd].
  assert (Hdom : dom d = list_to_set (flag <$> optional_imports)).
  { rewrite (run_optional_dom _ _ _ Hd), dom_empty_L. set_solver. }
  destruct (flags_of_globals_is_Some d) as [g Hg].
  { intros k Hk. apply elem_of_dom. rewrite Hdom.
    by apply elem_of_list_to_set. }
  exists d, g. split; [done|]. split; [done|]. split; [|done].
  rewrite <- size_dom, Hdom. vm_compute. reflexivity.
Qed.

(** X18: the imports at the head of the module are not guarded: when one
    of them does not work, [pkg_resources] among them, the load of the
    module raises. *)
Theorem load_fails_without_required (t : string) :
  t ∈ required_imports ->
  imp t <> Imported ->
  exists e : exn, load_module imp = Raised e.
Proof.
  intros Hin Hne. unfold load_module.
  destruct (run_required_Raised required_imports t Hin Hne) as [e ->].
  by eexists.
Qed.

(** X19: the blocks catch [ImportError] only.  When the first import of
    a block raises another exception, the load of the module raises
    instead of setting the flag to false. *)
Theorem load_fails_on_crash (b : OptionalImport) (t msg : string)
  (targets : list string) (alts : list (list string)) :
  (forall t' : string, t' ∈ required_imports -> imp t' = Imported) ->
  b ∈ optional_imports ->
  alternatives b = (t :: targets) :: alts ->
  imp t = ImportCrash msg ->
  exists e : exn, load_module imp = Raised e.
Proof.
  intros Hreq Hin Halts Ht. unfold load_module.
  rewrite run_required_Ok by done.
  apply (run_optional_Raised _ _ b (Exception msg) Hin).
  rewrite Halts. simpl. by rewrite Ht.
Qed.

(** X20: after a load, [HAS_TOML] is true exactly when [toml] or its
    fallback [tomllib] can be imported, whereas [HAS_TOML_ALT] is true
    exactly when [toml] itself can; [HAS_QISKIT] is true exactly when
    both [qiskit] and [qiskit.quantum_info.random_state] can be
    imported. *)
Theorem fallback_and_joint_imports (d : gmap string bool) :
  load_module imp = Ok d ->
  (d !! "HAS_TOML" = Some true <->
   imp "toml" = Imported \/ imp "tomllib" = Imported) /\
  (d !! "HAS_TOML_ALT" = Some true <-> imp "toml" = Imported) /\
  (d !! "HAS_QISKIT" = Some true <->
   imp "qiskit" = Imported /\
   imp "qiskit.quantum_info.random_state" = Imported).
Proof.
  intros Hload.
  destruct (load_module_lookup d
              {| flag := "HAS_TOML"; alternatives := [["toml"]; ["tomllib"]] |}
              Hload) as (v1 & Hv1 & Hd1); [elem_search|].
  destruct (load_module_lookup d
              {| flag := "HAS_TOML_ALT"; alternatives := [["toml"]] |}
              Hload) as (v2 & Hv2 & Hd2); [elem_search|].
  destruct (load_module_lookup d
              {| flag := "HAS_QISKIT";
                 alternatives :=
                   [["qiskit"; "qiskit.quantum_info.random_state"]] |}
              Hload) as (v3 & Hv3 & Hd3); [elem_search|].
  cbn [alternatives flag try_import import_all] in *.
  rewrite Hd1, Hd2, Hd3.
  destruct (imp "toml") as [|m|m]; destruct (imp "tomllib") as [|m'|m'];
    destruct (imp "qiskit") as [|m1|m1];
    destruct (imp "qiskit.quantum_info.random_state") as [|m2|m2];
    simplify_eq; intuition congruence.
Qed.



End Loading.

(** * From the load of the module to the reports of the server *)

Section LoadedServer.
Context `{E : Env}.
Variable imp : string -> ImportOutcome.

Local Abbreviation Value := (Value num).



End LoadedServer.

(** * The definitions at work on the concrete environment *)

Section Demo.
#[local] Existing Instance demo_env.

Local Abbreviation Value := (Value Z).

(** ** Installation *)

Example install_nothing :
  install_missing_packages [] (demo_state no_flags)
  = (Ok ∅, demo_state no_flags).
Proof. reflexivity. Qed.

Example install_already_installed :
  install_missing_packages ["X"] (demo_state no_flags)
  = (Ok (<["X" := "already_installed"]> ∅), demo_state no_flags).
Proof. vm_compute. reflexivity. Qed.

Example install_fresh :
  (install_missing_packages ["Y"] (demo_state no_flags)).1
  = Ok (<["Y" := "installed"]> ∅) /\
  exec_calls (install_missing_packages ["Y"] (demo_state no_flags)).2
  = [["/usr/bin/python3"; "-m"; "pip"; "install"; "Y"]].
Proof. split; vm_compute; reflexivity. Qed.

Example install_failing :
  (install_missing_packages ["broken"] (demo_state no_flags)).1
  = Ok (<["broken" := "failed: boom"]> ∅).
Proof. vm_compute. reflexivity. Qed.

Example install_mixed :
  (install_missing_packages ["ghost"; "X"; "broken"; "Y"]
     (demo_state no_flags)).1
  = Ok (<["ghost" := "error: [Errno 2] No such file or directory"]>
       (<["X" := "already_installed"]>
       (<["broken" := "failed: boom"]>
       (<["Y" := "installed"]> ∅)))).
Proof. vm_compute. reflexivity. Qed.

(** A name requested twice: the second iteration finds the package that
    the first one installed. *)
Example install_twice :
  (install_missing_packages ["Y"; "Y"] (demo_state no_flags)).1
  = Ok (<["Y" := "already_installed"]> ∅) /\
  exec_calls (install_missing_packages ["Y"; "Y"] (demo_state no_flags)).2
  = [["/usr/bin/python3"; "-m"; "pip"; "install"; "Y"]].
Proof. split; vm_compute; reflexivity. Qed.

(** ** Dispatch *)

Example quality_check_all_tools :
  match run_code_quality_check "app.py" (demo_state all_flags) with
  | (Ok r, s') =>
      match r !! "checks" with
      | Some (VDict d) =>
          d !! "pylint" = Some (tool_report 0 "ok" "") /\
          d !! "flake8"
          = Some (VDict
                    (<["error" :=
                       VStr "[Errno 2] No such file or directory: 'flake8'"]>
                       ∅)) /\
          d !! "bandit" = Some (tool_report 2 "" "usage")
      | _ => False
      end /\
      exec_calls s' = [["pylint"; "app.py"]; ["flake8"; "app.py"];
                       ["bandit"; "-f"; "json"; "app.py"]]
  | (Raised _, _) => False
  end.
Proof. vm_compute. repeat split; reflexivity. Qed.

Example format_code_no_tools :
  format_code "app.py" (demo_state no_flags)
  = (Ok (<["file" := VStr "app.py"]> (<["formatters" := VDict ∅]> ∅)),
     demo_state no_flags).
Proof. vm_compute. reflexivity. Qed.

(** C2 (as stated) fails: for the missing file ["nope.py"] the result is
    not the two-key dictionary [{"file": ..., "error": ...}]; it also
    holds the key "checks", with an empty dictionary. *)
Lemma missing_file_result_has_checks_key :
  os_path_exists (world (demo_state all_flags)) "nope.py" = false /\
  (run_code_quality_check "nope.py" (demo_state all_flags)).1
  <> Ok (<["file" := VStr "nope.py"]>
          (<["error" := VStr "File not found"]> ∅)) /\
  exists r : gmap string Value,
    (run_code_quality_check "nope.py" (demo_state all_flags)).1 = Ok r /\
    r !! "checks" = Some (VDict ∅).
Proof.
  split; [reflexivity|]. split.
  - rewrite run_code_quality_check_missing by reflexivity.
    intros H.
    apply (f_equal (fun x => match x with
                             | Ok m => m !! "checks"
                             | Raised _ => None
                             end)) in H.
    cbn [fst] in H. vm_compute in H. discriminate H.
  - eexists. rewrite run_code_quality_check_missing by reflexivity.
    split; [reflexivity|].
    rewrite !lookup_insert_ne by discriminate. apply lookup_insert_eq.
Qed.

Lemma quality_check_missing_file_witness :
  os_path_exists (world (demo_state all_flags)) "nope.py" = false /\
  exists (r : gmap string Value) (s' : State),
    run_code_quality_check "nope.py" (demo_state all_flags) = (Ok r, s') /\
    r = <["file" := VStr "nope.py"]>
          (<["checks" := VDict ∅]>
             (<["error" := VStr "File not found"]> ∅)) /\
    dom r = {["file"; "checks"; "error"]} /\
    exec_calls s' = exec_calls (demo_state all_flags) /\
    s' = demo_state all_flags.
Proof.
  split.
  - reflexivity.
  - apply (quality_check_missing_file "nope.py" (demo_state all_flags)).
    reflexivity.
Defined.

(** A run with every tool enabled on an existing file: [flake8] cannot
    be launched, the other tools run. *)
Lemma tool_failures_are_isolated_witness :
  os_path_exists (world (demo_state all_flags)) "app.py" = true /\
  ((let tools :=
      quality_tools (globals (demo_state all_flags)) "app.py" in
   exists (d : gmap string Value) (s' : State),
     run_code_quality_check "app.py" (demo_state all_flags)
     = (Ok (<["file" := VStr "app.py"]> (<["checks" := VDict d]> ∅)), s')
     /\
     exec_calls s' = exec_calls (demo_state all_flags) ++ tools.*2 /\
     dom d = list_to_set tools.*1 /\
     forall pre tool argv post,
       tools = pre ++ (tool, argv) :: post ->
       let outcome :=
         (os_exec (world_after pre (world (demo_state all_flags))) argv).1 in
       d !! tool = Some (tool_entry outcome) /\
       forall msg : string,
         outcome = ExecRaise msg ->
         d !! tool = Some (VDict (<["error" := VStr msg]> ∅))) /\
  (let tools :=
     format_tools (globals (demo_state all_flags)) "app.py" in
   exists (d : gmap string Value) (s' : State),
     format_code "app.py" (demo_state all_flags)
     = (Ok (<["file" := VStr "app.py"]> (<["formatters" := VDict d]> ∅)), s')
     /\
     exec_calls s' = exec_calls (demo_state all_flags) ++ tools.*2 /\
     dom d = list_to_set tools.*1 /\
     forall pre tool argv post,
       tools = pre ++ (tool, argv) :: post ->
       let outcome :=
         (os_exec (world_after pre (world (demo_state all_flags))) argv).1 in
       d !! tool = Some (tool_entry outcome) /\
       forall msg : string,
         outcome = ExecRaise msg ->
         d !! tool = Some (VDict (<["error" := VStr msg]> ∅)))).
Proof.
  split.
  - reflexivity.
  - apply (tool_failures_are_isolated "app.py" (demo_state all_flags)).
    reflexivity.
Defined.

(** ** System information *)

(** Every flag set, every psutil and GPUtil read raising, and only
    psutil with resolvable metadata. *)
Example system_info_degrades :
  match get_system_info (demo_state all_flags) with
  | (Ok info, s') =>
      s' = demo_state all_flags /\
      info !! "system_resources" = None /\
      info !! "gpus" = None /\
      match info !! "installed_packages" with
      | Some (VDict pk) =>
          pk !! "psutil" = Some (VStr "1.0") /\
          pk !! "numpy" = Some (VStr "unknown") /\
          size pk = 31%nat
      | _ => False
      end
  | (Raised _, _) => False
  end.
Proof. vm_compute. repeat split; reflexivity. Qed.

Example system_info_without_flags :
  match get_system_info (demo_state no_flags) with
  | (Ok info, s') =>
      info !! "installed_packages" = Some (VDict ∅) /\
      info !! "system_resources" = None /\
      size info = 6%nat
  | (Raised _, _) => False
  end.
Proof. vm_compute. repeat split; reflexivity. Qed.

(** ** Recommendations *)

Example recommendations_all_missing :
  match get_missing_packages_recommendations (demo_state no_flags) with
  | (Ok r, _) =>
      size r = 11%nat /\
      r !! "Deep Learning" = Some ["torch"; "tensorflow"]
  | (Raised _, _) => False
  end.
Proof. vm_compute. split; reflexivity. Qed.

Example recommendations_none_missing :
  (get_missing_packages_recommendations (demo_state all_flags)).1 = Ok ∅.
Proof. vm_compute. reflexivity. Qed.

(** ** Further runs *)

Lemma install_all_resolvable_witness :
  (forall p : string,
     p ∈ ["X"; "psutil"] ->
     is_Some (os_version (world (demo_state no_flags)) p)) /\
  exists r : gmap string string,
    install_missing_packages ["X"; "psutil"] (demo_state no_flags)
    = (Ok r, demo_state no_flags) /\
    dom r = list_to_set ["X"; "psutil"] /\
    forall p : string,
      p ∈ ["X"; "psutil"] -> r !! p = Some "already_installed".
Proof.
  assert (H : forall p : string,
            p ∈ ["X"; "psutil"] ->
            is_Some (os_version (world (demo_state no_flags)) p)).
  { intros p Hp.
    apply elem_of_cons in Hp as [->|Hp]; [by eexists|].
    apply elem_of_cons in Hp as [->|Hp]; [by eexists|].
    by apply elem_of_nil in Hp. }
  split; [exact H|].
  exact (install_all_resolvable ["X"; "psutil"] (demo_state no_flags) H).
Defined.

Lemma format_code_missing_file_witness :
  os_path_exists (world (demo_state all_flags)) "nope.py" = false /\
  exists (r : gmap string Value) (s' : State),
    format_code "nope.py" (demo_state all_flags) = (Ok r, s') /\
    r = <["file" := VStr "nope.py"]>
          (<["formatters" := VDict ∅]>
             (<["error" := VStr "File not found"]> ∅)) /\
    dom r = {["file"; "formatters"; "error"]} /\
    exec_calls s' = exec_calls (demo_state all_flags) /\
    s' = demo_state all_flags.
Proof.
  split.
  - reflexivity.
  - apply (format_code_missing_file "nope.py" (demo_state all_flags)).
    reflexivity.
Defined.


Lemma code_quality_false_dispatch_witness :
  code_quality (detect_capabilities (globals (demo_state bandit_only)))
  = false /\
  os_path_exists (world (demo_state bandit_only)) "app.py" = true /\
  format_code "app.py" (demo_state bandit_only)
  = (Ok (<["file" := VStr "app.py"]> (<["formatters" := VDict ∅]> ∅)),
     demo_state bandit_only) /\
  exec_calls (run_code_quality_check "app.py" (demo_state bandit_only)).2
  = exec_calls (demo_state bandit_only)
    ++ (if HAS_BANDIT (globals (demo_state bandit_only))
        then [["bandit"; "-f"; "json"; "app.py"]] else []).
Proof.
  split; [reflexivity|]. split; [reflexivity|].
  apply (code_quality_false_dispatch "app.py" (demo_state bandit_only));
    reflexivity.
Defined.

Lemma detect_capabilities_monotone_witness :
  flags_le pylint_only all_flags /\
  enabled (detect_capabilities pylint_only) CodeQuality = true /\
  enabled (detect_capabilities all_flags) CodeQuality = true.
Proof.
  assert (H : flags_le pylint_only all_flags).
  { unfold flags_le. simpl. repeat split; reflexivity. }
  split; [exact H|]. split; [reflexivity|].
  apply (detect_capabilities_monotone pylint_only all_flags CodeQuality H).
  reflexivity.
Defined.

(** ** The load of the module *)

Lemma load_completes_witness :
  (forall t : string,
     t ∈ required_imports -> demo_importer [] [] ["psutil"] t = Imported) /\
  (forall t msg : string,
     demo_importer [] [] ["psutil"] t <> ImportCrash msg) /\
  exists (d : gmap string bool) (g : DependencyFlags),
    load_module (demo_importer [] [] ["psutil"]) = Ok d /\
    dom d = list_to_set (flag <$> optional_imports) /\
    size d = 50%nat /\
    flags_of_globals d = Some g.
Proof.
  assert (H1 : forall t : string,
            t ∈ required_imports ->
            demo_importer [] [] ["psutil"] t = Imported).
  { intros t Ht. unfold required_imports in Ht.
    repeat (apply elem_of_cons in Ht as [->|Ht]; [reflexivity|]).
    by apply elem_of_nil in Ht. }
  assert (H2 : forall t msg : string,
            demo_importer [] [] ["psutil"] t <> ImportCrash msg).
  { intros t msg. unfold demo_importer. cbn [existsb].
    by destruct (existsb (String.eqb t) (required_imports ++ ["psutil"])). }
  split; [exact H1|]. split; [exact H2|].
  exact (load_completes (demo_importer [] [] ["psutil"]) H1 H2).
Defined.

Lemma load_fails_without_required_witness :
  "pkg_resources" ∈ required_imports /\
  demo_importer ["pkg_resources"] [] [] "pkg_resources" <> Imported /\
  exists e : exn,
    load_module (demo_importer ["pkg_resources"] [] []) = Raised e.
Proof.
  assert (H1 : "pkg_resources" ∈ required_imports).
  { apply (bool_decide_unpack _). vm_compute. reflexivity. }
  assert (H2 : demo_importer ["pkg_resources"] [] [] "pkg_resources"
               <> Imported).
  { vm_compute. discriminate. }
  split; [exact H1|]. split; [exact H2|].
  exact (load_fails_without_required
           (demo_importer ["pkg_resources"] [] []) "pkg_resources" H1 H2).
Defined.

Lemma load_fails_on_crash_witness :
  (forall t' : string,
     t' ∈ required_imports ->
     demo_importer [] ["tensorflow"] [] t' = Imported) /\
  {| flag := "HAS_TENSORFLOW"; alternatives := [["tensorflow"]] |}
    ∈ optional_imports /\
  demo_importer [] ["tensorflow"] [] "tensorflow"
  = ImportCrash "initialization failed" /\
  exists e : exn,
    load_module (demo_importer [] ["tensorflow"] []) = Raised e.
Proof.
  assert (H1 : forall t' : string,
            t' ∈ required_imports ->
            demo_importer [] ["tensorflow"] [] t' = Imported).
  { intros t Ht. unfold required_imports in Ht.
    repeat (apply elem_of_cons in Ht as [->|Ht]; [reflexivity|]).
    by apply elem_of_nil in Ht. }
  assert (H2 : {| flag := "HAS_TENSORFLOW";
                  alternatives := [["tensorflow"]] |} ∈ optional_imports).
  { repeat first [apply list_elem_of_here | apply list_elem_of_further]. }
  split; [exact H1|]. split; [exact H2|]. split; [reflexivity|].
  exact (load_fails_on_crash (demo_importer [] ["tensorflow"] [])
           _ "tensorflow" "initialization failed" [] [] H1 H2
           eq_refl eq_refl).
Defined.

Lemma fallback_and_joint_imports_witness :
  load_module tomllib_importer = Ok tomllib_globals /\
  (tomllib_globals !! "HAS_TOML" = Some true <->
   tomllib_importer "toml" = Imported \/
   tomllib_importer "tomllib" = Imported) /\
  (tomllib_globals !! "HAS_TOML_ALT" = Some true <->
   tomllib_importer "toml" = Imported) /\
  (tomllib_globals !! "HAS_QISKIT" = Some true <->
   tomllib_importer "qiskit" = Imported /\
   tomllib_importer "qiskit.quantum_info.random_state" = Imported).
Proof.
  assert (H : load_module tomllib_importer = Ok tomllib_globals).
  { apply Ok_default. vm_compute. reflexivity. }
  split; [exact H|].
  exact (fallback_and_joint_imports tomllib_importer tomllib_globals H).
Defined.



Example tomllib_load :
  tomllib_globals !! "HAS_TOML" = Some true /\
  tomllib_globals !! "HAS_TOML_ALT" = Some false /\
  HAS_TOML tomllib_flags = true.
Proof. vm_compute. repeat split; reflexivity. Qed.

End Demo.

(** * Runs on the environment with undecodable output *)

Section Garbled.
#[local] Existing Instance garbled_env.

Local Abbreviation Value := (Value Z).

Lemma install_undecodable_stderr_witness :
  os_version (world (garbled_state no_flags)) "Y" = None /\
  (os_exec (world (garbled_state no_flags))
     [sys_executable; "-m"; "pip"; "install"; "Y"]).1
  = ExecDone 1 [] [Byte.xff] /\
  decode [Byte.xff] = inl "'utf-8' codec can't decode byte" /\
  (install_missing_packages ["Y"] (garbled_state no_flags)).1
  = Ok (<["Y" := if (1 =? 0)%Z then "installed"
                 else "error: " +:+ "'utf-8' codec can't decode byte"]> ∅).
Proof.
  split; [reflexivity|]. split; [reflexivity|]. split; [reflexivity|].
  apply (install_undecodable_stderr "Y" (garbled_state no_flags) 1 []
           [Byte.xff] "'utf-8' codec can't decode byte"); reflexivity.
Defined.

Lemma undecodable_tool_output_witness :
  os_path_exists (world (garbled_state pylint_only)) "app.py" = true /\
  HAS_PYLINT (globals (garbled_state pylint_only)) = true /\
  (os_exec (world (garbled_state pylint_only)) ["pylint"; "app.py"]).1
  = ExecDone 0 [Byte.xff] [] /\
  decode [Byte.xff] = inl "'utf-8' codec can't decode byte" /\
  exists (r : gmap string Value) (s' : State) (d : gmap string Value),
    run_code_quality_check "app.py" (garbled_state pylint_only) = (Ok r, s')
    /\
    r !! "checks" = Some (VDict d) /\
    d !! "pylint"
    = Some (VDict (<["error" := VStr "'utf-8' codec can't decode byte"]> ∅)).
Proof.
  split; [reflexivity|]. split; [reflexivity|]. split; [reflexivity|].
  split; [reflexivity|].
  apply (undecodable_tool_output "app.py" (garbled_state pylint_only) 0
           [Byte.xff] [] "'utf-8' codec can't decode byte"); reflexivity.
Defined.

End Garbled.
